(** * Person/Address/Course/Assignment API: the request handlers of main.py

    A shallow embedding of [main.py] and of the pydantic models of
    [models/course.py] and [models/assignment.py], and the properties of
    the CRUD handlers over the four in-memory dictionaries. *)

From Stdlib Require Import ZArith String Ascii List Bool.
From Stdlib Require Import Decimal DecimalString DecimalNat.
From stdpp Require Import gmap strings list fin_maps.

Local Open Scope Z_scope.
Local Open Scope string_scope.

(* ===================================================================== *)
(** * Python values carried by the models *)
(* ===================================================================== *)

(** [uuid.UUID]: a 128-bit integer. *)
Definition UUID := Z.

(** [datetime.datetime] (naive UTC): microseconds since the epoch. *)
Definition datetime := Z.

(** [datetime.date]. *)
Record date := mkdate { year : nat; month : nat; day : nat }.

(** Decimal digits of [n], left-padded with ['0'] to [width] characters:
    Python's ["%0<width>d"]. *)
Fixpoint zfill (pad : nat) (s : string) : string :=
  match pad with
  | O => s
  | S p => String "0"%char (zfill p s)
  end.

Definition decimal (n : nat) : string :=
  NilZero.string_of_uint (Nat.to_uint n).

Definition padded (width n : nat) : string :=
  let s := decimal n in zfill (width - String.length s) s.

(** [str(d)] for a [date] is [d.isoformat()], that is ["%04d-%02d-%02d"]. *)
Definition date_isoformat (d : date) : string :=
  padded 4 (year d) ++ "-" ++ padded 2 (month d) ++ "-" ++ padded 2 (day d).

(** [str(x)] for an attribute typed [date] or [Optional[date]]. *)
Definition str_date (x : option date) : string :=
  match x with
  | Some d => date_isoformat d
  | None => "None"
  end.

(** Modelled from the spec: models/person.py and models/address.py are
    not part of the sources. A person "holds an embedded sequence of
    Address-shaped values"; of such a value ([addr] in the comprehensions
    of [list_persons]) the handlers read [city] and [country]. *)
Record Addr := mkAddr {
  addr_id : UUID;
  addr_street : string;
  addr_city : string;
  addr_state : option string;
  addr_postal_code : option string;
  addr_country : string
}.

(** The values a field of these models can hold. *)
Inductive value :=
| VNone
| VStr (s : string)
| VInt (n : Z)
| VUuid (u : UUID)
| VDate (d : date)
| VDatetime (t : datetime)
| VAddrs (l : list Addr).

#[global] Instance date_eq_dec : EqDecision date.
Proof. solve_decision. Defined.
#[global] Instance Addr_eq_dec : EqDecision Addr.
Proof. solve_decision. Defined.
#[global] Instance value_eq_dec : EqDecision value.
Proof. solve_decision. Defined.

(** A keyword dictionary [**kwargs], the result of [model_dump()], and the
    [__dict__] of a model instance: field name to value. *)
Abbreviation fields := (gmap string value).

(* ===================================================================== *)
(** * pydantic: field declarations, validation, dumping *)
(* ===================================================================== *)

(** The annotations used by the models. *)
Inductive ftype :=
| TStr | TInt | TUuid | TDate | TDatetime
| TListAddr
| TOptional (t : ftype).

(** Validation of a value against an annotation. The values that reach
    the constructors in main.py were validated before (a dumped instance,
    a validated payload), so no coercion is involved: the value is of the
    type, or it is not. *)
Fixpoint has_type (v : value) (t : ftype) : bool :=
  match t, v with
  | TStr, VStr _ => true
  | TInt, VInt _ => true
  | TUuid, VUuid _ => true
  | TDate, VDate _ => true
  | TDatetime, VDatetime _ => true
  | TListAddr, VAddrs _ => true
  | TOptional _, VNone => true
  | TOptional t', _ => has_type v t'
  | _, _ => false
  end.

#[global] Instance ftype_eq_dec : EqDecision ftype.
Proof. solve_decision. Defined.

(** The default factories: [uuid4], [datetime.utcnow] and [list]. *)
Inductive factory := uuid4 | utcnow | empty_list.

(** [Field(...)], [Field(None)] and [Field(default_factory=f)]. *)
Inductive fdefault :=
| Required
| Default (v : value)
| DefaultFactory (f : factory).

Record field := Field { fname : string; ftyp : ftype; fdef : fdefault }.

Definition schema := list field.

Definition names (s : schema) : list string := map fname s.

(* ===================================================================== *)
(** * Python dictionaries keyed by UUID (insertion-ordered) *)
(* ===================================================================== *)

(** [Dict[UUID, V]]: iteration follows insertion order, assigning to a key
    that is present keeps its position, assigning to a new key appends. *)
Definition pydict (V : Type) := list (UUID * V).

Section PyDict.
Context {V : Type}.

(** [d[k]]; [None] stands for [KeyError]. *)
Fixpoint getitem (d : pydict V) (k : UUID) : option V :=
  match d with
  | [] => None
  | (k', v) :: d' => if decide (k = k') then Some v else getitem d' k
  end.

(** [k in d] *)
Definition contains (d : pydict V) (k : UUID) : bool :=
  match getitem d k with Some _ => true | None => false end.

(** [d[k] = v] *)
Fixpoint setitem (d : pydict V) (k : UUID) (v : V) : pydict V :=
  match d with
  | [] => [(k, v)]
  | (k', v') :: d' =>
      if decide (k = k') then (k', v) :: d' else (k', v') :: setitem d' k v
  end.

(** [del d[k]] *)
Fixpoint delitem (d : pydict V) (k : UUID) : pydict V :=
  match d with
  | [] => []
  | (k', v') :: d' =>
      if decide (k = k') then d' else (k', v') :: delitem d' k
  end.

(** [list(d.values())] *)
Definition dict_values (d : pydict V) : list V := map snd d.
End PyDict.

(* ===================================================================== *)
(** * The process: the four module-level dictionaries, the clock, uuid4 *)
(* ===================================================================== *)

(** The state of the process. [clock n] is what the [n]-th call of
    [datetime.utcnow()] returns and [uuids n] what the [n]-th call of
    [uuid4()] returns; the two counters say how many calls were made. *)
Record World := mkWorld {
  persons : pydict fields;
  addresses : pydict fields;
  courses : pydict fields;
  assignments : pydict fields;
  clock : nat -> datetime;
  clock_reads : nat;
  uuids : nat -> UUID;
  uuid_draws : nat
}.

(** The four "databases" of main.py. *)
Inductive table := Persons | Addresses | Courses | Assignments.

Definition rows (t : table) (w : World) : pydict fields :=
  match t with
  | Persons => persons w
  | Addresses => addresses w
  | Courses => courses w
  | Assignments => assignments w
  end.

Definition set_rows (t : table) (d : pydict fields) (w : World) : World :=
  match t with
  | Persons =>
      mkWorld d (addresses w) (courses w) (assignments w)
              (clock w) (clock_reads w) (uuids w) (uuid_draws w)
  | Addresses =>
      mkWorld (persons w) d (courses w) (assignments w)
              (clock w) (clock_reads w) (uuids w) (uuid_draws w)
  | Courses =>
      mkWorld (persons w) (addresses w) d (assignments w)
              (clock w) (clock_reads w) (uuids w) (uuid_draws w)
  | Assignments =>
      mkWorld (persons w) (addresses w) (courses w) d
              (clock w) (clock_reads w) (uuids w) (uuid_draws w)
  end.

(** Exceptions. [HTTPException] is what the handlers raise themselves;
    [ValidationError] is pydantic's, raised by a model constructor;
    [KeyError] and [AttributeError] are Python's own. *)
Inductive exn :=
| HTTPException (status_code : Z) (detail : string)
| ValidationError
| KeyError
| AttributeError.

Inductive result (A : Type) :=
| Ok (a : A)
| Raise (e : exn).
Arguments Ok {A} a.
Arguments Raise {A} e.

(** Computations over the process state that return or raise. A raise
    keeps the state reached so far: nothing is rolled back. *)
Definition M (A : Type) := World -> result A * World.

Definition ret {A} (a : A) : M A := fun w => (Ok a, w).

Definition raise {A} (e : exn) : M A := fun w => (Raise e, w).

Definition bind {A B} (m : M A) (k : A -> M B) : M B :=
  fun w =>
    match m w with
    | (Ok a, w') => k a w'
    | (Raise e, w') => (Raise e, w')
    end.

Declare Scope py_scope.
Delimit Scope py_scope with py.
Notation "x <- m ;; k" := (bind m (fun x => k))
  (at level 100, m at next level, right associativity) : py_scope.
Notation "m ;; k" := (bind m (fun _ => k))
  (at level 100, right associativity) : py_scope.
Local Open Scope py_scope.

(** [datetime.utcnow()] *)
Definition call_utcnow : M datetime :=
  fun w =>
    (Ok (clock w (clock_reads w)),
     mkWorld (persons w) (addresses w) (courses w) (assignments w)
             (clock w) (S (clock_reads w)) (uuids w) (uuid_draws w)).

(** [uuid4()] *)
Definition call_uuid4 : M UUID :=
  fun w =>
    (Ok (uuids w (uuid_draws w)),
     mkWorld (persons w) (addresses w) (courses w) (assignments w)
             (clock w) (clock_reads w) (uuids w) (S (uuid_draws w))).

(** The global dictionary [t] itself. *)
Definition global (t : table) : M (pydict fields) :=
  fun w => (Ok (rows t w), w).

(** [t[k]], raising [KeyError] when [k] is absent. *)
Definition load (t : table) (k : UUID) : M fields :=
  fun w =>
    match getitem (rows t w) k with
    | Some v => (Ok v, w)
    | None => (Raise KeyError, w)
    end.

(** [t[k] = v] *)
Definition store (t : table) (k : UUID) (v : fields) : M unit :=
  fun w => (Ok tt, set_rows t (setitem (rows t w) k v) w).

(** [del t[k]], raising [KeyError] when [k] is absent. *)
Definition remove (t : table) (k : UUID) : M unit :=
  fun w =>
    match getitem (rows t w) k with
    | Some _ => (Ok tt, set_rows t (delitem (rows t w) k) w)
    | None => (Raise KeyError, w)
    end.

(* ===================================================================== *)
(** * pydantic: constructing and dumping model instances *)
(* ===================================================================== *)

(** Calling a default factory. *)
Definition call (f : factory) : M value :=
  match f with
  | uuid4 => u <- call_uuid4 ;; ret (VUuid u)
  | utcnow => t <- call_utcnow ;; ret (VDatetime t)
  | empty_list => ret (VAddrs [])
  end.

(** The value of a field that the keyword arguments do not supply; [None]
    is the "field required" error. Defaults are not validated. *)
Definition default_value (d : fdefault) : M (option value) :=
  match d with
  | Required => ret None
  | Default v => ret (Some v)
  | DefaultFactory f => v <- call f ;; ret (Some v)
  end.

(** One field of the constructor call with keyword arguments [kw];
    [None] is a validation error for it. *)
Definition validate_field (f : field) (kw : fields) : M (option value) :=
  match kw !! fname f with
  | Some v => ret (if has_type v (ftyp f) then Some v else None)
  | None => default_value (fdef f)
  end.

(** The fields of the constructor call with keyword arguments [kw], in
    declaration order. Every field is visited, also after an error, and
    keys of [kw] that name no field are ignored. *)
Fixpoint validate (s : schema) (kw : fields) : M (option fields) :=
  match s with
  | [] => ret (Some ∅)
  | f :: s' =>
      ov <- validate_field f kw ;;
      om <- validate s' kw ;;
      ret (match ov, om with
           | Some v, Some m => Some (<[fname f := v]> m)
           | _, _ => None
           end)
  end.

(** The constructor call of model [s] with keyword arguments [kw]. *)
Definition construct (s : schema) (kw : fields) : M fields :=
  om <- validate s kw ;;
  match om with
  | Some m => ret m
  | None => raise ValidationError
  end.

(** [o.model_dump()]: the instance's fields as a dictionary. *)
Definition model_dump (o : fields) : fields := o.

(** An instance of an Update model: its field values together with
    [model_fields_set], the names the caller supplied explicitly. *)
Record Update := mkUpdate {
  values : fields;
  fields_set : gset string
}.

(** [u.model_dump(exclude_unset=True)] *)
Definition model_dump_exclude_unset (u : Update) : fields :=
  filter (fun kv => kv.1 ∈ fields_set u) (values u).

(** [stored.update(d)]: the keys of [d] overwrite those of [stored]. *)
Definition dict_update (stored d : fields) : fields := d ∪ stored.

(** The value [kw] gives to the field [f], if any, has the declared type. *)
Definition typed_in (kw : fields) (f : field) : bool :=
  match kw !! fname f with
  | Some v => has_type v (ftyp f)
  | None => true
  end.

(** Every key of [kw] that names a field of [s] holds a value of that
    field's type: no supplied value makes the constructor of [s] fail. *)
Definition accepts (s : schema) (kw : fields) : bool :=
  forallb (typed_in kw) s.

(** [o] is an instance of the model [s]: it has exactly the declared
    fields, each holding a value of the declared type. *)
Definition is_instance (s : schema) (o : fields) : bool :=
  bool_decide (dom o = list_to_set (names s)) && accepts s o.

(** [u] is an instance of the Update model [s]. *)
Definition is_update (s : schema) (u : Update) : bool :=
  is_instance s (values u)
  && bool_decide (fields_set u ⊆ list_to_set (names s)).

(** The Update instance the framework builds from a request body before
    it calls the handler: the constructor call of [s] on the body, whose
    keys that name no field are ignored (pydantic's default for extra
    keys), with [model_fields_set] the declared names the body supplies. *)
Definition parse_update (s : schema) (body : fields) : M Update :=
  vals <- construct s body ;;
  ret (mkUpdate vals (dom body ∩ list_to_set (names s))).

(** [o.id] *)
Definition attr_id (o : fields) : M UUID :=
  match o !! "id" with
  | Some (VUuid u) => ret u
  | _ => raise AttributeError
  end.

(** The attribute [o.name] when it is typed [date] or [Optional[date]]. *)
Definition attr_date (o : fields) (name : string) : option date :=
  match o !! name with
  | Some (VDate d) => Some d
  | _ => None
  end.

(** [p.addresses] *)
Definition attr_addresses (o : fields) : list Addr :=
  match o !! "addresses" with
  | Some (VAddrs l) => l
  | _ => []
  end.

(* ===================================================================== *)
(** * models/course.py *)
(* ===================================================================== *)

Definition CourseBase : schema :=
  [ Field "course_code" TStr Required;
    Field "title" TStr Required;
    Field "description" TStr Required;
    Field "credits" TInt Required;
    Field "instructor" TStr Required;
    Field "schedule" TStr Required;
    Field "semester" (TOptional TStr) (Default VNone);
    Field "location" (TOptional TStr) (Default VNone) ].

Definition CourseCreate : schema := CourseBase.

Definition CourseUpdate : schema :=
  [ Field "course_code" (TOptional TStr) (Default VNone);
    Field "title" (TOptional TStr) (Default VNone);
    Field "description" (TOptional TStr) (Default VNone);
    Field "credits" (TOptional TInt) (Default VNone);
    Field "instructor" (TOptional TStr) (Default VNone);
    Field "schedule" (TOptional TStr) (Default VNone);
    Field "semester" (TOptional TStr) (Default VNone);
    Field "location" (TOptional TStr) (Default VNone) ].

Definition CourseRead : schema :=
  (CourseBase ++
   [ Field "id" TUuid (DefaultFactory uuid4);
     Field "created_at" TDatetime (DefaultFactory utcnow);
     Field "updated_at" TDatetime (DefaultFactory utcnow) ])%list.

(* ===================================================================== *)
(** * models/assignment.py *)
(* ===================================================================== *)

Definition AssignmentBase : schema :=
  [ Field "title" TStr Required;
    Field "description" (TOptional TStr) (Default VNone);
    Field "assignment_type" TStr Required;
    Field "course_id" TUuid Required;
    Field "assigned_date" TDate Required;
    Field "due_date" TDate Required;
    Field "max_points" (TOptional TInt) (Default VNone) ].

Definition AssignmentCreate : schema := AssignmentBase.

Definition AssignmentUpdate : schema :=
  [ Field "title" (TOptional TStr) (Default VNone);
    Field "description" (TOptional TStr) (Default VNone);
    Field "assignment_type" (TOptional TStr) (Default VNone);
    Field "course_id" (TOptional TUuid) (Default VNone);
    Field "assigned_date" (TOptional TDate) (Default VNone);
    Field "due_date" (TOptional TDate) (Default VNone);
    Field "max_points" (TOptional TInt) (Default VNone) ].

Definition AssignmentRead : schema :=
  (AssignmentBase ++
   [ Field "id" TUuid (DefaultFactory uuid4);
     Field "created_at" TDatetime (DefaultFactory utcnow);
     Field "updated_at" TDatetime (DefaultFactory utcnow) ])%list.

(* ===================================================================== *)
(** * models/address.py and models/person.py *)
(* ===================================================================== *)

(** Modelled from the spec: models/address.py is not part of the sources.
    The fields are those main.py reads ([address.id] in [create_address],
    the five attributes filtered in [list_addresses]); the identifier is
    part of the creation payload ("identifier generated if absent in
    payload, or rejected if a caller-supplied identifier collides") and
    the Read model adds the two server-managed timestamps. *)
Definition AddressBase : schema :=
  [ Field "id" TUuid (DefaultFactory uuid4);
    Field "street" TStr Required;
    Field "city" TStr Required;
    Field "state" (TOptional TStr) (Default VNone);
    Field "postal_code" (TOptional TStr) (Default VNone);
    Field "country" TStr Required ].

(** Modelled from the spec: the creation payload of an Address. *)
Definition AddressCreate : schema := AddressBase.

(** Modelled from the spec: the partial payload of an Address ("identifier
    and [created_at] are never affected by an update payload"): every
    payload field optional, no identifier, no timestamps. *)
Definition AddressUpdate : schema :=
  [ Field "street" (TOptional TStr) (Default VNone);
    Field "city" (TOptional TStr) (Default VNone);
    Field "state" (TOptional TStr) (Default VNone);
    Field "postal_code" (TOptional TStr) (Default VNone);
    Field "country" (TOptional TStr) (Default VNone) ].

(** Modelled from the spec: the stored Address record. *)
Definition AddressRead : schema :=
  (AddressBase ++
   [ Field "created_at" TDatetime (DefaultFactory utcnow);
     Field "updated_at" TDatetime (DefaultFactory utcnow) ])%list.

(** Modelled from the spec: models/person.py is not part of the sources.
    The fields are those [list_persons] reads; a person "holds an embedded
    sequence of Address-shaped values". *)
Definition PersonBase : schema :=
  [ Field "uni" TStr Required;
    Field "first_name" TStr Required;
    Field "last_name" TStr Required;
    Field "email" TStr Required;
    Field "phone" (TOptional TStr) (Default VNone);
    Field "birth_date" (TOptional TDate) (Default VNone);
    Field "addresses" TListAddr (DefaultFactory empty_list) ].

(** Modelled from the spec: the creation payload of a Person; the
    identifier is generated by the Read model ("each person gets its own
    UUID" in [create_person]). *)
Definition PersonCreate : schema := PersonBase.

(** Modelled from the spec: the partial payload of a Person. *)
Definition PersonUpdate : schema :=
  [ Field "uni" (TOptional TStr) (Default VNone);
    Field "first_name" (TOptional TStr) (Default VNone);
    Field "last_name" (TOptional TStr) (Default VNone);
    Field "email" (TOptional TStr) (Default VNone);
    Field "phone" (TOptional TStr) (Default VNone);
    Field "birth_date" (TOptional TDate) (Default VNone);
    Field "addresses" (TOptional TListAddr) (Default VNone) ].

(** Modelled from the spec: the stored Person record. *)
Definition PersonRead : schema :=
  (PersonBase ++
   [ Field "id" TUuid (DefaultFactory uuid4);
     Field "created_at" TDatetime (DefaultFactory utcnow);
     Field "updated_at" TDatetime (DefaultFactory utcnow) ])%list.

(* ===================================================================== *)
(** * main.py: the handlers *)
(* ===================================================================== *)

(** [o.name == v] *)
Definition attr_eq (o : fields) (name : string) (v : value) : bool :=
  bool_decide (o !! name = Some v).

(** [if x is not None: results = [r for r in results if p x r]] *)
Definition keep {A} (x : option A) (p : A -> fields -> bool)
    (results : list fields) : list fields :=
  match x with
  | Some a => List.filter (p a) results
  | None => results
  end.

(** ** Address endpoints *)

Definition create_address (address : fields) : M fields :=
  id <- attr_id address ;;
  d <- global Addresses ;;
  if contains d id then
    raise (HTTPException 400 "Address with this ID already exists")
  else
    r <- construct AddressRead (model_dump address) ;;
    id <- attr_id address ;;
    store Addresses id r ;;
    id <- attr_id address ;;
    load Addresses id.

Definition list_addresses (street city state postal_code country : option string)
    : M (list fields) :=
  d <- global Addresses ;;
  let results := dict_values d in
  let results := keep street (fun x a => attr_eq a "street" (VStr x)) results in
  let results := keep city (fun x a => attr_eq a "city" (VStr x)) results in
  let results := keep state (fun x a => attr_eq a "state" (VStr x)) results in
  let results :=
    keep postal_code (fun x a => attr_eq a "postal_code" (VStr x)) results in
  let results := keep country (fun x a => attr_eq a "country" (VStr x)) results in
  ret results.

Definition get_address (address_id : UUID) : M fields :=
  d <- global Addresses ;;
  if negb (contains d address_id) then
    raise (HTTPException 404 "Address not found")
  else load Addresses address_id.

Definition update_address (address_id : UUID) (update : Update) : M fields :=
  d <- global Addresses ;;
  if negb (contains d address_id) then
    raise (HTTPException 404 "Address not found")
  else
    a <- load Addresses address_id ;;
    let stored := model_dump a in
    let stored := dict_update stored (model_dump_exclude_unset update) in
    r <- construct AddressRead stored ;;
    store Addresses address_id r ;;
    load Addresses address_id.

Definition delete_address (address_id : UUID) : M unit :=
  d <- global Addresses ;;
  if negb (contains d address_id) then
    raise (HTTPException 404 "Address not found")
  else remove Addresses address_id.

(** ** Person endpoints *)

Definition create_person (person : fields) : M fields :=
  person_read <- construct PersonRead (model_dump person) ;;
  id <- attr_id person_read ;;
  store Persons id person_read ;;
  ret person_read.

Definition list_persons
    (uni first_name last_name email phone birth_date city country : option string)
    : M (list fields) :=
  d <- global Persons ;;
  let results := dict_values d in
  let results := keep uni (fun x p => attr_eq p "uni" (VStr x)) results in
  let results :=
    keep first_name (fun x p => attr_eq p "first_name" (VStr x)) results in
  let results :=
    keep last_name (fun x p => attr_eq p "last_name" (VStr x)) results in
  let results := keep email (fun x p => attr_eq p "email" (VStr x)) results in
  let results := keep phone (fun x p => attr_eq p "phone" (VStr x)) results in
  let results :=
    keep birth_date
         (fun x p => bool_decide (str_date (attr_date p "birth_date") = x))
         results in
  let results :=
    keep city
         (fun x p => existsb (fun addr => bool_decide (addr_city addr = x))
                             (attr_addresses p))
         results in
  let results :=
    keep country
         (fun x p => existsb (fun addr => bool_decide (addr_country addr = x))
                             (attr_addresses p))
         results in
  ret results.

Definition get_person (person_id : UUID) : M fields :=
  d <- global Persons ;;
  if negb (contains d person_id) then
    raise (HTTPException 404 "Person not found")
  else load Persons person_id.

Definition update_person (person_id : UUID) (update : Update) : M fields :=
  d <- global Persons ;;
  if negb (contains d person_id) then
    raise (HTTPException 404 "Person not found")
  else
    p <- load Persons person_id ;;
    let stored := model_dump p in
    let stored := dict_update stored (model_dump_exclude_unset update) in
    r <- construct PersonRead stored ;;
    store Persons person_id r ;;
    load Persons person_id.

(** ** Course endpoints *)

Definition create_course (course : fields) : M fields :=
  course_read <- construct CourseRead (model_dump course) ;;
  id <- attr_id course_read ;;
  store Courses id course_read ;;
  ret course_read.

Definition list_courses (course_code title instructor : option string)
    (credits : option Z) (semester : option string) : M (list fields) :=
  d <- global Courses ;;
  let results := dict_values d in
  let results :=
    keep course_code (fun x c => attr_eq c "course_code" (VStr x)) results in
  let results := keep title (fun x c => attr_eq c "title" (VStr x)) results in
  let results :=
    keep instructor (fun x c => attr_eq c "instructor" (VStr x)) results in
  let results := keep credits (fun x c => attr_eq c "credits" (VInt x)) results in
  let results :=
    keep semester (fun x c => attr_eq c "semester" (VStr x)) results in
  ret results.

Definition get_course (course_id : UUID) : M fields :=
  d <- global Courses ;;
  if negb (contains d course_id) then
    raise (HTTPException 404 "Course not found")
  else load Courses course_id.

Definition update_course (course_id : UUID) (update : Update) : M fields :=
  d <- global Courses ;;
  if negb (contains d course_id) then
    raise (HTTPException 404 "Course not found")
  else
    c <- load Courses course_id ;;
    let stored := model_dump c in
    let stored := dict_update stored (model_dump_exclude_unset update) in
    r <- construct CourseRead stored ;;
    store Courses course_id r ;;
    load Courses course_id.

Definition delete_course (course_id : UUID) : M unit :=
  d <- global Courses ;;
  if negb (contains d course_id) then
    raise (HTTPException 404 "Course not found")
  else remove Courses course_id.

(** ** Assignment endpoints *)

Definition create_assignment (assignment : fields) : M fields :=
  assignment_read <- construct AssignmentRead (model_dump assignment) ;;
  id <- attr_id assignment_read ;;
  store Assignments id assignment_read ;;
  ret assignment_read.

Definition list_assignments (title assignment_type : option string)
    (course_id : option UUID) (due_date assigned_date : option string)
    : M (list fields) :=
  d <- global Assignments ;;
  let results := dict_values d in
  let results := keep title (fun x a => attr_eq a "title" (VStr x)) results in
  let results :=
    keep assignment_type
         (fun x a => attr_eq a "assignment_type" (VStr x)) results in
  let results :=
    keep course_id (fun x a => attr_eq a "course_id" (VUuid x)) results in
  let results :=
    keep due_date
         (fun x a => bool_decide (str_date (attr_date a "due_date") = x))
         results in
  let results :=
    keep assigned_date
         (fun x a => bool_decide (str_date (attr_date a "assigned_date") = x))
         results in
  ret results.

Definition get_assignment (assignment_id : UUID) : M fields :=
  d <- global Assignments ;;
  if negb (contains d assignment_id) then
    raise (HTTPException 404 "Assignment not found")
  else load Assignments assignment_id.

Definition update_assignment (assignment_id : UUID) (update : Update)
    : M fields :=
  d <- global Assignments ;;
  if negb (contains d assignment_id) then
    raise (HTTPException 404 "Assignment not found")
  else
    a <- load Assignments assignment_id ;;
    let stored := model_dump a in
    let stored := dict_update stored (model_dump_exclude_unset update) in
    r <- construct AssignmentRead stored ;;
    store Assignments assignment_id r ;;
    load Assignments assignment_id.

(** ** The routes: status codes of the decorators *)

Record Response (A : Type) := mkResponse { status : Z; content : option A }.
Arguments mkResponse {A} status content.
Arguments status {A} r.
Arguments content {A} r.

(** What the framework answers for a handler registered with
    [status_code]: an [HTTPException] carries its own status, any other
    exception is an internal server error. *)
Definition respond {A} (status_code : Z) (h : M A) : World -> Response A * World :=
  fun w =>
    match h w with
    | (Ok a, w') => (mkResponse status_code (Some a), w')
    | (Raise (HTTPException c _), w') => (mkResponse c None, w')
    | (Raise _, w') => (mkResponse 500 None, w')
    end.

Definition post_addresses address := respond 201 (create_address address).
Definition get_addresses street city state postal_code country :=
  respond 200 (list_addresses street city state postal_code country).
Definition get_addresses_id address_id := respond 200 (get_address address_id).
Definition patch_addresses_id address_id update :=
  respond 200 (update_address address_id update).
Definition delete_addresses_id address_id :=
  respond 204 (delete_address address_id).

Definition post_persons person := respond 201 (create_person person).
Definition get_persons uni first_name last_name email phone birth_date city
    country :=
  respond 200 (list_persons uni first_name last_name email phone birth_date
                            city country).
Definition get_persons_id person_id := respond 200 (get_person person_id).
Definition patch_persons_id person_id update :=
  respond 200 (update_person person_id update).

Definition post_courses course := respond 201 (create_course course).
Definition get_courses course_code title instructor credits semester :=
  respond 200 (list_courses course_code title instructor credits semester).
Definition get_courses_id course_id := respond 200 (get_course course_id).
Definition patch_courses_id course_id update :=
  respond 200 (update_course course_id update).
Definition delete_courses_id course_id := respond 204 (delete_course course_id).

Definition post_assignments assignment :=
  respond 201 (create_assignment assignment).
Definition get_assignments title assignment_type course_id due_date
    assigned_date :=
  respond 200 (list_assignments title assignment_type course_id due_date
                                assigned_date).
Definition get_assignments_id assignment_id :=
  respond 200 (get_assignment assignment_id).
Definition patch_assignments_id assignment_id update :=
  respond 200 (update_assignment assignment_id update).

(* ===================================================================== *)
(** * The four resources, uniformly *)
(* ===================================================================== *)

Inductive resource := Person | Address | Course | Assignment.

#[global] Instance resource_eq_dec : EqDecision resource.
Proof. solve_decision. Defined.

Definition table_of (r : resource) : table :=
  match r with
  | Person => Persons
  | Address => Addresses
  | Course => Courses
  | Assignment => Assignments
  end.

Definition create_model (r : resource) : schema :=
  match r with
  | Person => PersonCreate
  | Address => AddressCreate
  | Course => CourseCreate
  | Assignment => AssignmentCreate
  end.

Definition update_model (r : resource) : schema :=
  match r with
  | Person => PersonUpdate
  | Address => AddressUpdate
  | Course => CourseUpdate
  | Assignment => AssignmentUpdate
  end.

Definition read_model (r : resource) : schema :=
  match r with
  | Person => PersonRead
  | Address => AddressRead
  | Course => CourseRead
  | Assignment => AssignmentRead
  end.

Definition create (r : resource) : fields -> M fields :=
  match r with
  | Person => create_person
  | Address => create_address
  | Course => create_course
  | Assignment => create_assignment
  end.

Definition get (r : resource) : UUID -> M fields :=
  match r with
  | Person => get_person
  | Address => get_address
  | Course => get_course
  | Assignment => get_assignment
  end.

Definition update (r : resource) : UUID -> Update -> M fields :=
  match r with
  | Person => update_person
  | Address => update_address
  | Course => update_course
  | Assignment => update_assignment
  end.

(** Delete is offered for addresses and courses only. *)
Definition delete (r : resource) : option (UUID -> M unit) :=
  match r with
  | Address => Some delete_address
  | Course => Some delete_course
  | Person | Assignment => None
  end.

(** The rows of resource [r]. *)
Definition records (r : resource) (w : World) : pydict fields :=
  rows (table_of r) w.

(** The detail string of the resource's 404. *)
Definition not_found (r : resource) : string :=
  match r with
  | Person => "Person not found"
  | Address => "Address not found"
  | Course => "Course not found"
  | Assignment => "Assignment not found"
  end.

(** The common text of the handlers, by table and model. *)
Definition get_in (t : table) (detail : string) (id : UUID) : M fields :=
  d <- global t ;;
  if negb (contains d id) then raise (HTTPException 404 detail)
  else load t id.

Definition update_in (t : table) (read : schema) (detail : string)
    (id : UUID) (update : Update) : M fields :=
  d <- global t ;;
  if negb (contains d id) then raise (HTTPException 404 detail)
  else
    o <- load t id ;;
    let stored := model_dump o in
    let stored := dict_update stored (model_dump_exclude_unset update) in
    r <- construct read stored ;;
    store t id r ;;
    load t id.

Definition delete_in (t : table) (detail : string) (id : UUID) : M unit :=
  d <- global t ;;
  if negb (contains d id) then raise (HTTPException 404 detail)
  else remove t id.

Definition create_in (t : table) (read : schema) (payload : fields) : M fields :=
  o <- construct read (model_dump payload) ;;
  id <- attr_id o ;;
  store t id o ;;
  ret o.

(** The fields every Read model adds for the server, and the two the
    Address Read model adds (its identifier is a payload field). *)
Definition server_fields : schema :=
  [ Field "id" TUuid (DefaultFactory uuid4);
    Field "created_at" TDatetime (DefaultFactory utcnow);
    Field "updated_at" TDatetime (DefaultFactory utcnow) ].

Definition timestamps : schema :=
  [ Field "created_at" TDatetime (DefaultFactory utcnow);
    Field "updated_at" TDatetime (DefaultFactory utcnow) ].

(** ** Well-formed states *)

(** Every row of a table is an instance of the table's Read model. *)
Definition wf_rows (s : schema) (d : pydict fields) : bool :=
  forallb (fun kv => is_instance s kv.2) d.

Definition wf_world (w : World) : bool :=
  wf_rows PersonRead (persons w) && wf_rows AddressRead (addresses w)
  && wf_rows CourseRead (courses w) && wf_rows AssignmentRead (assignments w).

(** The state after [c] more clock reads and [u] more uuid4 draws. *)
Definition advance (c u : nat) (w : World) : World :=
  mkWorld (persons w) (addresses w) (courses w) (assignments w)
          (clock w) (c + clock_reads w) (uuids w) (u + uuid_draws w).

(** The part of [kw] the constructor of [s] reads. *)
Fixpoint pick (s : schema) (kw : fields) : fields :=
  match s with
  | [] => ∅
  | f :: s' =>
      match kw !! fname f with
      | Some v => <[fname f := v]> (pick s' kw)
      | None => pick s' kw
      end
  end.

(** The result of an operation is an error of the given kind. *)
Definition is_not_found {A} (x : result A) : Prop :=
  exists detail, x = Raise (HTTPException 404 detail).

Definition is_conflict {A} (x : result A) : Prop :=
  exists detail, x = Raise (HTTPException 400 detail).

Definition failed {A} (x : result A) : Prop :=
  exists e, x = Raise e.

(** The timestamps a Read model draws when it is built in state [w]:
    [created_at] from the next clock read, [updated_at] from the one
    after. *)
Definition stamps (w : World) : fields :=
  <["created_at" := VDatetime (clock w (clock_reads w))]>
    (<["updated_at" := VDatetime (clock w (S (clock_reads w)))]> ∅).

(** The identifier and the timestamps drawn in state [w]. *)
Definition server_values (w : World) : fields :=
  <["id" := VUuid (uuids w (uuid_draws w))]> (stamps w).

(** The values of an instance built from [kw] by a model whose fields all
    have a plain default: the supplied value, else the default. *)
Fixpoint fill (s : schema) (kw : fields) : fields :=
  match s with
  | [] => ∅
  | f :: s' =>
      match kw !! fname f, fdef f with
      | Some v, _ => <[fname f := v]> (fill s' kw)
      | None, Default v => <[fname f := v]> (fill s' kw)
      | None, _ => fill s' kw
      end
  end.

(** Every field of [s] has a plain default of its own type, and no two
    fields share a name: the shape of the four Update models. *)
Fixpoint all_optional (s : schema) : bool :=
  match s with
  | [] => true
  | f :: s' =>
      match fdef f with
      | Default v => has_type v (ftyp f)
      | _ => false
      end
      && negb (bool_decide (fname f ∈ names s'))
      && all_optional s'
  end.

(** Every field of the Update model [upd] that is also a field of [read]
    has there the same type, or that type made optional. *)
Definition relaxes (upd read : schema) : bool :=
  forallb
    (fun g =>
       forallb
         (fun f =>
            if decide (fname f = fname g) then
              bool_decide (ftyp g = ftyp f)
              || bool_decide (ftyp g = TOptional (ftyp f))
            else true)
         read)
    upd.

(* ===================================================================== *)
(** * List, as the specification words it *)
(* ===================================================================== *)

(** A filter that is absent imposes no constraint. *)
Definition supplied {A} (x : option A) (p : A -> bool) : bool :=
  match x with
  | Some a => p a
  | None => true
  end.

(** A string (integer, identifier) filter is exact equality with the
    field. *)
Definition field_is (o : fields) (name : string) (v : value) : bool :=
  bool_decide (o !! name = Some v).

(** A date filter compares with the textual rendering of the stored
    date. *)
Definition date_renders_as (o : fields) (name : string) (x : string) : bool :=
  bool_decide (str_date (attr_date o name) = x).

(** At least one embedded address has the city (the country). *)
Definition some_address (o : fields) (p : Addr -> bool) : bool :=
  existsb p (attr_addresses o).

(** A record is listed when it satisfies every supplied filter. *)
Definition address_matches (street city state postal_code country : option string)
    (a : fields) : bool :=
  supplied street (fun x => field_is a "street" (VStr x))
  && supplied city (fun x => field_is a "city" (VStr x))
  && supplied state (fun x => field_is a "state" (VStr x))
  && supplied postal_code (fun x => field_is a "postal_code" (VStr x))
  && supplied country (fun x => field_is a "country" (VStr x)).

Definition person_matches
    (uni first_name last_name email phone birth_date city country : option string)
    (p : fields) : bool :=
  supplied uni (fun x => field_is p "uni" (VStr x))
  && supplied first_name (fun x => field_is p "first_name" (VStr x))
  && supplied last_name (fun x => field_is p "last_name" (VStr x))
  && supplied email (fun x => field_is p "email" (VStr x))
  && supplied phone (fun x => field_is p "phone" (VStr x))
  && supplied birth_date (fun x => date_renders_as p "birth_date" x)
  && supplied city
       (fun x => some_address p (fun addr => bool_decide (addr_city addr = x)))
  && supplied country
       (fun x => some_address p (fun addr => bool_decide (addr_country addr = x))).

Definition course_matches (course_code title instructor : option string)
    (credits : option Z) (semester : option string) (c : fields) : bool :=
  supplied course_code (fun x => field_is c "course_code" (VStr x))
  && supplied title (fun x => field_is c "title" (VStr x))
  && supplied instructor (fun x => field_is c "instructor" (VStr x))
  && supplied credits (fun x => field_is c "credits" (VInt x))
  && supplied semester (fun x => field_is c "semester" (VStr x)).

Definition assignment_matches (title assignment_type : option string)
    (course_id : option UUID) (due_date assigned_date : option string)
    (a : fields) : bool :=
  supplied title (fun x => field_is a "title" (VStr x))
  && supplied assignment_type (fun x => field_is a "assignment_type" (VStr x))
  && supplied course_id (fun x => field_is a "course_id" (VUuid x))
  && supplied due_date (fun x => date_renders_as a "due_date" x)
  && supplied assigned_date (fun x => date_renders_as a "assigned_date" x).

(* ===================================================================== *)
(** * Sample states and payloads *)
(* ===================================================================== *)

(** A clock that advances by one microsecond at every read. *)
Definition ticking_clock : nat -> datetime := fun n => 1000 + Z.of_nat n.

(** A clock whose first two reads fall in the same instant and whose
    later reads are an hour on. *)
Definition coarse_clock : nat -> datetime :=
  fun n => if (n <? 2)%nat then 1000 else 3600001000.

Definition fresh_uuids : nat -> UUID := fun n => 100 + Z.of_nat n.

(** A uuid4 that repeats itself. *)
Definition stuck_uuids : nat -> UUID := fun _ => 100.

Definition start (clk : nat -> datetime) (ids : nat -> UUID) : World :=
  mkWorld [] [] [] [] clk 0 ids 0.

(** The course of the specification's example scenario. *)
Definition cloud_computing : fields :=
  list_to_map
    [ ("course_code", VStr "COMS W4153");
      ("title", VStr "Cloud Computing");
      ("description", VStr "An introduction to cloud computing.");
      ("credits", VInt 3);
      ("instructor", VStr "Ferguson");
      ("schedule", VStr "MWF 10:00-11:15");
      ("semester", VNone);
      ("location", VNone) ].

Definition databases : fields :=
  list_to_map
    [ ("course_code", VStr "COMS W4111");
      ("title", VStr "Introduction to Databases");
      ("description", VStr "The fundamentals of database design.");
      ("credits", VInt 3);
      ("instructor", VStr "Gravano");
      ("schedule", VStr "TTh 2:40-3:55");
      ("semester", VStr "Spring 2025");
      ("location", VStr "Mudd 233") ].

(** A CourseUpdate with no field set. *)
Definition course_unset : fields :=
  list_to_map
    [ ("course_code", VNone); ("title", VNone); ("description", VNone);
      ("credits", VNone); ("instructor", VNone); ("schedule", VNone);
      ("semester", VNone); ("location", VNone) ].

(** The update [{"credits": 4}] of the example scenario. *)
Definition credits_4 : Update :=
  mkUpdate (<["credits" := VInt 4]> course_unset) {["credits"]}.

(** The update [{"title": null}]. *)
Definition null_title : Update := mkUpdate course_unset {["title"]}.

(** The update [{"description": ""}]: a falsy value that is supplied. *)
Definition blank_description : Update :=
  mkUpdate (<["description" := VStr ""]> course_unset) {["description"]}.

(** The update [{}]. *)
Definition no_change : Update := mkUpdate course_unset ∅.

(** A request body that tries to set the identifier and the creation
    time along with the credits. *)
Definition body_with_id : fields :=
  list_to_map
    [ ("id", VUuid 999); ("created_at", VDatetime 0); ("credits", VInt 4) ].

(** The state after the example course was created, with either clock. *)
Definition one_course (clk : nat -> datetime) : World :=
  snd (create_course cloud_computing (start clk fresh_uuids)).

Definition home : fields :=
  list_to_map
    [ ("id", VUuid 7);
      ("street", VStr "116th St and Broadway");
      ("city", VStr "New York");
      ("state", VStr "NY");
      ("postal_code", VStr "10027");
      ("country", VStr "USA") ].

(** Another address that carries the identifier of [home]. *)
Definition office : fields :=
  list_to_map
    [ ("id", VUuid 7);
      ("street", VStr "500 W 120th St");
      ("city", VStr "New York");
      ("state", VNone);
      ("postal_code", VNone);
      ("country", VStr "USA") ].

Definition one_address : World :=
  snd (create_address home (start ticking_clock fresh_uuids)).

(** The example course as it is stored: identifier 100, the two
    timestamps, and the given number of credits. *)
Definition stored_course (created updated : datetime) (credits : Z) : fields :=
  list_to_map
    [ ("course_code", VStr "COMS W4153");
      ("title", VStr "Cloud Computing");
      ("description", VStr "An introduction to cloud computing.");
      ("credits", VInt credits);
      ("instructor", VStr "Ferguson");
      ("schedule", VStr "MWF 10:00-11:15");
      ("semester", VNone);
      ("location", VNone);
      ("id", VUuid 100);
      ("created_at", VDatetime created);
      ("updated_at", VDatetime updated) ].

(** The example address as it is stored. *)
Definition stored_home (created updated : datetime) : fields :=
  list_to_map
    [ ("id", VUuid 7);
      ("street", VStr "116th St and Broadway");
      ("city", VStr "New York");
      ("state", VStr "NY");
      ("postal_code", VStr "10027");
      ("country", VStr "USA");
      ("created_at", VDatetime created);
      ("updated_at", VDatetime updated) ].

(** The second example course as it is stored. *)
Definition stored_databases (id : UUID) (created updated : datetime) : fields :=
  list_to_map
    [ ("course_code", VStr "COMS W4111");
      ("title", VStr "Introduction to Databases");
      ("description", VStr "The fundamentals of database design.");
      ("credits", VInt 3);
      ("instructor", VStr "Gravano");
      ("schedule", VStr "TTh 2:40-3:55");
      ("semester", VStr "Spring 2025");
      ("location", VStr "Mudd 233");
      ("id", VUuid id);
      ("created_at", VDatetime created);
      ("updated_at", VDatetime updated) ].

(** The state after the example course was created by a process whose
    uuid4 repeats itself. *)
Definition one_course_stuck : World :=
  snd (create_course cloud_computing (start ticking_clock stuck_uuids)).

(** ** The states the process can be in *)

(** One request: a handler called on arguments of its declared types. The
    List handlers leave the state as it is. *)
Inductive step : World -> World -> Prop :=
| step_create r payload w :
    is_instance (create_model r) payload = true ->
    step w (snd (create r payload w))
| step_get r id w :
    step w (snd (get r id w))
| step_update r id u w :
    is_update (update_model r) u = true ->
    step w (snd (update r id u w))
| step_delete r del id w :
    delete r = Some del ->
    step w (snd (del id w))
| step_list w :
    step w w.

(** The states reached from empty dictionaries, whatever the clock and
    uuid4 return. *)
Inductive reachable : World -> Prop :=
| reachable_start clk ids : reachable (start clk ids)
| reachable_step w w' : reachable w -> step w w' -> reachable w'.

(** ** What holds of every row *)

(** Every row of [d] satisfies [P] of its key and its record. *)
Definition all_rows (P : UUID -> fields -> Prop) (d : pydict fields) : Prop :=
  forall k o, In (k, o) d -> P k o.

(** The record carries, as its [id], the key it is stored under. *)
Definition keyed (k : UUID) (o : fields) : Prop :=
  o !! "id" = Some (VUuid k).

(** The record's [created_at] and [updated_at] are two consecutive
    readings of the clock [clk]. *)
Definition stamped_by (clk : nat -> datetime) (o : fields) : Prop :=
  exists n,
    o !! "created_at" = Some (VDatetime (clk n))
    /\ o !! "updated_at" = Some (VDatetime (clk (S n))).

(** What the process keeps true of its four dictionaries. *)
Definition invariant (w : World) : Prop :=
  wf_world w = true
  /\ forall r,
       List.NoDup (map fst (records r w))
       /\ all_rows (fun k o => keyed k o /\ stamped_by (clock w) o) (records r w).

(** List with no filter, by resource. *)
Definition list_all (r : resource) : M (list fields) :=
  match r with
  | Person => list_persons None None None None None None None None
  | Address => list_addresses None None None None None
  | Course => list_courses None None None None None
  | Assignment => list_assignments None None None None None
  end.

(** The number a string of decimal digits writes. *)
Definition read_decimal (s : string) : nat :=
  match NilEmpty.uint_of_string s with
  | Some d => Nat.of_uint d
  | None => O
  end.

(** The string has no ['-'] in it. *)
Fixpoint no_dash (s : string) : bool :=
  match s with
  | EmptyString => true
  | String c s' => negb (Ascii.eqb c "-") && no_dash s'
  end.

(** An assignment of the example course, and the state after it was
    created. *)
Definition homework : fields :=
  list_to_map
    [ ("title", VStr "Programming Assignment 1: Web Scraper");
      ("description", VNone);
      ("assignment_type", VStr "homework");
      ("course_id", VUuid 100);
      ("assigned_date", VDate (mkdate 2025 9 1));
      ("due_date", VDate (mkdate 2025 9 15));
      ("max_points", VInt 100) ].

Definition stored_homework : fields :=
  list_to_map
    [ ("title", VStr "Programming Assignment 1: Web Scraper");
      ("description", VNone);
      ("assignment_type", VStr "homework");
      ("course_id", VUuid 100);
      ("assigned_date", VDate (mkdate 2025 9 1));
      ("due_date", VDate (mkdate 2025 9 15));
      ("max_points", VInt 100);
      ("id", VUuid 100);
      ("created_at", VDatetime 1000);
      ("updated_at", VDatetime 1001) ].

Definition one_assignment : World :=
  snd (create_assignment homework (start ticking_clock fresh_uuids)).

(** The state after both example courses were created. *)
Definition two_courses : World :=
  snd (create_course databases (one_course ticking_clock)).

(** The update [{"title": "Cloud Computing II", "credits": 2}]. *)
Definition retitle : Update :=
  mkUpdate (<["title" := VStr "Cloud Computing II"]>
              (<["credits" := VInt 2]> course_unset))
           ({["title"]} ∪ {["credits"]}).

(** A person with two addresses, stored under identifier 100.
    Modelled from the spec: the Person models are not part of the
    sources. *)
Definition traveller : fields :=
  list_to_map
    [ ("uni", VStr "abc1234");
      ("first_name", VStr "Ada");
      ("last_name", VStr "Lovelace");
      ("email", VStr "ada@example.com");
      ("phone", VNone);
      ("birth_date", VNone);
      ("addresses",
       VAddrs [ mkAddr 1 "116th St" "New York" (Some "NY") None "USA";
                mkAddr 2 "Rue de Rivoli" "Paris" None None "France" ]) ].

Definition one_person : World :=
  snd (create_person traveller (start ticking_clock fresh_uuids)).

(** ** What the process has drawn *)

(** uuid4 never returns a value twice. *)
Definition never_repeats (ids : nat -> UUID) : Prop :=
  forall i j, ids i = ids j -> i = j.

(** A row of resource [r] in state [w]: unless [r] is the address store,
    whose keys come with the payloads, the key is a value uuid4 has
    returned; the record's [created_at] and [updated_at] are two
    consecutive readings of the clock, both already taken. *)
Definition drawn_row (r : resource) (w : World) (k : UUID) (o : fields) : Prop :=
  (r <> Address -> exists i, (i < uuid_draws w)%nat /\ k = uuids w i)
  /\ exists n,
       (S n < clock_reads w)%nat
       /\ o !! "created_at" = Some (VDatetime (clock w n))
       /\ o !! "updated_at" = Some (VDatetime (clock w (S n))).

Definition drawn (w : World) : Prop :=
  forall r, all_rows (drawn_row r w) (records r w).

(* ===================================================================== *)
(** * Facts about dictionaries *)
(* ===================================================================== *)

(** Closed equations between concrete states and records are settled by
    evaluation. *)
Ltac by_evaluation :=
  lazymatch goal with
  | |- @eq ?T ?l ?r => vm_cast_no_check (@eq_refl T r)
  end.

Section PyDictFacts.
Context {V : Type}.
Implicit Types (d : pydict V) (k : UUID) (v : V).

Lemma contains_true d k : contains d k = true <-> exists v, getitem d k = Some v.
Proof.
  unfold contains. destruct (getitem d k) as [v|]; split; eauto.
  - discriminate.
  - intros [v Hv]. discriminate.
Qed.

Lemma contains_false d k : contains d k = false <-> getitem d k = None.
Proof.
  unfold contains. destruct (getitem d k); split; congruence.
Qed.

Lemma getitem_setitem_eq d k v : getitem (setitem d k v) k = Some v.
Proof.
  induction d as [|[k' v'] d IH]; simpl.
  - rewrite decide_True; auto.
  - destruct (decide (k = k')) as [->|Hne]; simpl.
    + rewrite decide_True; auto.
    + rewrite decide_False; auto.
Qed.

Lemma getitem_setitem_ne d k k' v :
  k' <> k -> getitem (setitem d k v) k' = getitem d k'.
Proof.
  intros Hne. induction d as [|[k0 v0] d IH]; simpl.
  - rewrite decide_False; auto.
  - destruct (decide (k = k0)) as [->|Hk]; simpl.
    + rewrite !decide_False; auto.
    + destruct (decide (k' = k0)); auto.
Qed.

(** Assigning the value a key already holds changes nothing. *)
Lemma setitem_same d k v : getitem d k = Some v -> setitem d k v = d.
Proof.
  induction d as [|[k' v'] d IH]; simpl; [discriminate|].
  destruct (decide (k = k')) as [->|Hne].
  - intros [= ->]. reflexivity.
  - intros H. rewrite IH; auto.
Qed.

(** Assigning twice is assigning the last value. *)
Lemma setitem_setitem d k v v' :
  setitem (setitem d k v) k v' = setitem d k v'.
Proof.
  induction d as [|[k0 v0] d IH]; simpl.
  - rewrite decide_True; auto.
  - destruct (decide (k = k0)) as [->|Hne]; simpl.
    + rewrite decide_True; auto.
    + rewrite decide_False; auto. rewrite IH. reflexivity.
Qed.

Lemma getitem_None d k : ~ In k (map fst d) -> getitem d k = None.
Proof.
  induction d as [|[k' v'] d IH]; simpl; auto.
  intros Hnotin. destruct (decide (k = k')) as [->|Hne]; [tauto|].
  apply IH. tauto.
Qed.

(** Under distinct keys, which the operations maintain, a deleted key
    is gone. *)
Lemma getitem_delitem_eq d k :
  List.NoDup (map fst d) -> getitem (delitem d k) k = None.
Proof.
  induction d as [|[k' v'] d IH]; simpl; auto.
  intros Hnd. inversion Hnd as [|? ? Hnotin Hnd']; subst.
  destruct (decide (k = k')) as [->|Hne]; simpl.
  - apply getitem_None, Hnotin.
  - rewrite decide_False; auto.
Qed.

Lemma getitem_delitem_ne d k k' :
  k' <> k -> getitem (delitem d k) k' = getitem d k'.
Proof.
  intros Hne. induction d as [|[k0 v0] d IH]; simpl; auto.
  destruct (decide (k = k0)) as [->|Hk]; simpl.
  - rewrite decide_False; auto.
  - destruct (decide (k' = k0)); auto.
Qed.

(** A new key goes to the end of the iteration order. *)
Lemma dict_values_setitem_new d k v :
  getitem d k = None ->
  dict_values (setitem d k v) = (dict_values d ++ [v])%list.
Proof.
  unfold dict_values.
  induction d as [|[k' v'] d IH]; simpl; auto.
  destruct (decide (k = k')); [discriminate|].
  intros H. simpl. rewrite IH; auto.
Qed.

(** A key that is present keeps its place. *)
Lemma keys_setitem_present d k v :
  contains d k = true -> map fst (setitem d k v) = map fst d.
Proof.
  unfold contains.
  induction d as [|[k' v'] d IH]; simpl; [discriminate|].
  destruct (decide (k = k')); simpl; auto.
  intros H. rewrite IH; auto.
Qed.

Lemma getitem_In d k v : getitem d k = Some v -> In (k, v) d.
Proof.
  induction d as [|[k' v'] d IH]; simpl; [discriminate|].
  destruct (decide (k = k')) as [->|Hne].
  - intros [= ->]. auto.
  - auto.
Qed.
End PyDictFacts.

Lemma wf_rows_getitem s d k o :
  wf_rows s d = true -> getitem d k = Some o -> is_instance s o = true.
Proof.
  unfold wf_rows. rewrite forallb_forall. intros Hall Hget.
  apply (Hall (k, o)), getitem_In, Hget.
Qed.

Lemma wf_rows_setitem s d k o :
  wf_rows s d = true -> is_instance s o = true ->
  wf_rows s (setitem d k o) = true.
Proof.
  unfold wf_rows. intros Hd Ho.
  induction d as [|[k' v'] d IH]; simpl in *.
  - rewrite Ho. reflexivity.
  - apply andb_true_iff in Hd as [H1 H2].
    destruct (decide (k = k')); simpl.
    + rewrite Ho, H2. reflexivity.
    + rewrite H1, IH; auto.
Qed.

Lemma wf_rows_delitem s d k :
  wf_rows s d = true -> wf_rows s (delitem d k) = true.
Proof.
  unfold wf_rows. intros Hd.
  induction d as [|[k' v'] d IH]; simpl in *; auto.
  apply andb_true_iff in Hd as [H1 H2].
  destruct (decide (k = k')); simpl; auto.
  rewrite H1, IH; auto.
Qed.

(* ===================================================================== *)
(** * Facts about the process state *)
(* ===================================================================== *)

Lemma rows_set_rows t d w : rows t (set_rows t d w) = d.
Proof. destruct t; reflexivity. Qed.

Lemma rows_set_rows_ne t t' d w : t <> t' -> rows t' (set_rows t d w) = rows t' w.
Proof. destruct t, t'; intros H; try reflexivity; congruence. Qed.

Lemma set_rows_same t w : set_rows t (rows t w) w = w.
Proof. destruct t, w; reflexivity. Qed.

Lemma set_rows_set_rows t d d' w :
  set_rows t d' (set_rows t d w) = set_rows t d' w.
Proof. destruct t; reflexivity. Qed.

Lemma rows_advance t c u w : rows t (advance c u w) = rows t w.
Proof. destruct t; reflexivity. Qed.

Lemma wf_world_rows r w :
  wf_world w = true -> wf_rows (read_model r) (records r w) = true.
Proof.
  unfold wf_world, records. rewrite !andb_true_iff.
  intros [[[H1 H2] H3] H4]. destruct r; assumption.
Qed.

Lemma wf_world_getitem r w id o :
  wf_world w = true -> getitem (records r w) id = Some o ->
  is_instance (read_model r) o = true.
Proof.
  intros Hwf. apply wf_rows_getitem, wf_world_rows, Hwf.
Qed.

(* ===================================================================== *)
(** * Facts about model construction *)
(* ===================================================================== *)

Lemma lookup_pick s kw n :
  pick s kw !! n = if decide (n ∈ names s) then kw !! n else None.
Proof.
  induction s as [|f s IH]; cbn [pick].
  - rewrite lookup_empty. rewrite decide_False; [reflexivity|]. apply not_elem_of_nil.
  - change (names (f :: s)) with (fname f :: names s).
    destruct (kw !! fname f) as [v|] eqn:Hf.
    + rewrite lookup_insert. destruct (decide (fname f = n)) as [<-|Hne].
      * rewrite decide_True by (apply elem_of_cons; auto). congruence.
      * rewrite IH. destruct (decide (n ∈ names s)) as [Hin|Hnin].
        -- rewrite decide_True by (apply elem_of_cons; auto). reflexivity.
        -- rewrite decide_False; [reflexivity|].
           intros [->|Hin]%elem_of_cons; congruence.
    + rewrite IH. destruct (decide (n ∈ names s)) as [Hin|Hnin].
      * rewrite decide_True by (apply elem_of_cons; auto). reflexivity.
      * destruct (decide (n ∈ fname f :: names s)) as [Hin|_]; [|reflexivity].
        apply elem_of_cons in Hin as [->|Hin]; congruence.
Qed.

(** A dictionary with no key outside the model is read whole. *)
Lemma pick_id s (kw : fields) :
  dom kw ⊆ list_to_set (names s) -> pick s kw = kw.
Proof.
  intros Hdom. apply map_eq. intros n. rewrite lookup_pick.
  destruct (decide (n ∈ names s)) as [Hin|Hnin]; [reflexivity|].
  symmetry. apply not_elem_of_dom. intros Hn. apply Hnin.
  apply Hdom in Hn. apply elem_of_list_to_set in Hn. exact Hn.
Qed.

Lemma validate_field_present f kw v w :
  kw !! fname f = Some v ->
  validate_field f kw w = (Ok (if has_type v (ftyp f) then Some v else None), w).
Proof. unfold validate_field. intros ->. reflexivity. Qed.

(** When the keyword arguments supply every field, construction draws on
    neither the clock nor uuid4, and succeeds exactly when every value is
    of its field's type. *)
Lemma validate_present s kw w :
  (forall f, In f s -> is_Some (kw !! fname f)) ->
  validate s kw w = (Ok (if accepts s kw then Some (pick s kw) else None), w).
Proof.
  induction s as [|f s IH]; intros Hall; simpl; [reflexivity|].
  destruct (Hall f (or_introl eq_refl)) as [v Hv].
  unfold bind. rewrite (validate_field_present _ _ _ _ Hv).
  rewrite IH by (intros g Hg; apply Hall; right; exact Hg).
  unfold typed_in at 1. rewrite Hv. unfold ret.
  destruct (has_type v (ftyp f)); simpl; [|reflexivity].
  destruct (accepts s kw); reflexivity.
Qed.

(** Validation itself never raises: errors are reported in its result. *)
Lemma validate_returns s kw w :
  exists om w', validate s kw w = (Ok om, w').
Proof.
  revert w. induction s as [|f s IH]; intros w; simpl.
  - eexists _, _. reflexivity.
  - unfold bind.
    assert (exists ov w1, validate_field f kw w = (Ok ov, w1)) as (ov & w1 & ->).
    { unfold validate_field. destruct (kw !! fname f).
      - eexists _, _. reflexivity.
      - destruct (fdef f) as [|v|[]]; eexists _, _; reflexivity. }
    destruct (IH w1) as (om & w2 & ->). eexists _, _. reflexivity.
Qed.

(** Two groups of fields are validated one after the other. *)
Lemma validate_app s1 s2 kw w o1 w1 o2 w2 :
  validate s1 kw w = (Ok o1, w1) ->
  validate s2 kw w1 = (Ok o2, w2) ->
  validate (s1 ++ s2)%list kw w =
    (Ok (match o1, o2 with
         | Some m1, Some m2 => Some (m1 ∪ m2)
         | _, _ => None
         end), w2).
Proof.
  revert w o1 w1. induction s1 as [|f s1 IH]; intros w o1 w1 H1 H2; simpl in *.
  - injection H1 as <- <-. rewrite H2. destruct o2; [|reflexivity].
    rewrite (left_id_L ∅ (∪)). reflexivity.
  - unfold bind in *.
    destruct (validate_field f kw w) as [[ov|e] wa]; [|discriminate].
    destruct (validate_returns s1 kw wa) as (oa & wb & Ha).
    rewrite Ha in H1. injection H1 as <- <-.
    rewrite (IH _ _ _ Ha H2). unfold ret.
    destruct ov, oa, o2; try reflexivity.
    rewrite insert_union_l. reflexivity.
Qed.

(** Values that replace accepted ones decide alone whether the merged
    dictionary is accepted. *)
Lemma accepts_union s (d old : fields) :
  accepts s old = true -> accepts s (d ∪ old) = accepts s d.
Proof.
  unfold accepts. induction s as [|f s IH]; simpl; [reflexivity|].
  intros [Hf Hs]%andb_true_iff. rewrite IH by exact Hs. f_equal.
  unfold typed_in in *. rewrite lookup_union.
  destruct (d !! fname f) as [v|]; simpl.
  - destruct (old !! fname f); reflexivity.
  - rewrite (left_id_L None union). exact Hf.
Qed.

Lemma accepts_empty s : accepts s ∅ = true.
Proof.
  unfold accepts. apply forallb_forall. intros f _. unfold typed_in.
  rewrite lookup_empty. reflexivity.
Qed.

Lemma is_instance_dom s o :
  is_instance s o = true -> dom o = list_to_set (names s).
Proof.
  unfold is_instance. intros [H _]%andb_true_iff.
  apply bool_decide_eq_true in H. exact H.
Qed.

Lemma is_instance_accepts s o : is_instance s o = true -> accepts s o = true.
Proof. unfold is_instance. intros [_ H]%andb_true_iff. exact H. Qed.

Lemma is_instance_present s o f :
  is_instance s o = true -> In f s -> is_Some (o !! fname f).
Proof.
  intros Hi Hf. apply elem_of_dom. rewrite (is_instance_dom _ _ Hi).
  apply elem_of_list_to_set. unfold names.
  apply list_elem_of_In, in_map, Hf.
Qed.

Lemma is_instance_absent s o n :
  is_instance s o = true -> n ∉ names s -> o !! n = None.
Proof.
  intros Hi Hn. apply not_elem_of_dom. rewrite (is_instance_dom _ _ Hi).
  rewrite elem_of_list_to_set. exact Hn.
Qed.

(** What [model_dump(exclude_unset=True)] holds. *)
Lemma lookup_exclude_unset u n :
  model_dump_exclude_unset u !! n =
    if decide (n ∈ fields_set u) then values u !! n else None.
Proof.
  unfold model_dump_exclude_unset.
  destruct (decide (n ∈ fields_set u)) as [Hin|Hnin].
  - destruct (values u !! n) as [v|] eqn:Hv.
    + apply map_lookup_filter_Some. auto.
    + apply map_lookup_filter_None. left. exact Hv.
  - apply map_lookup_filter_None. right. intros v _. exact Hnin.
Qed.

Lemma dom_exclude_unset s u :
  is_update s u = true ->
  dom (model_dump_exclude_unset u) ⊆ list_to_set (names s).
Proof.
  unfold is_update. intros [_ Hset]%andb_true_iff.
  apply bool_decide_eq_true in Hset.
  intros n [v Hv]%elem_of_dom. rewrite lookup_exclude_unset in Hv.
  destruct (decide (n ∈ fields_set u)); [|discriminate]. auto.
Qed.

Lemma exclude_unset_empty u :
  fields_set u = ∅ -> model_dump_exclude_unset u = ∅.
Proof.
  intros Hset. apply map_eq. intros n.
  rewrite lookup_exclude_unset, Hset, lookup_empty.
  rewrite decide_False; [reflexivity|]. apply not_elem_of_empty.
Qed.

(* ===================================================================== *)
(** * The handlers in closed form *)
(* ===================================================================== *)

Lemma get_unfold r : get r = get_in (table_of r) (not_found r).
Proof. destruct r; reflexivity. Qed.

Lemma update_unfold r :
  update r = update_in (table_of r) (read_model r) (not_found r).
Proof. destruct r; reflexivity. Qed.

Lemma delete_unfold r del :
  delete r = Some del -> del = delete_in (table_of r) (not_found r).
Proof. destruct r; intros [= <-]; reflexivity. Qed.

Lemma create_unfold r :
  r <> Address -> create r = create_in (table_of r) (read_model r).
Proof. destruct r; intros H; try reflexivity; congruence. Qed.

Lemma get_in_run t detail id w :
  get_in t detail id w =
    match getitem (rows t w) id with
    | Some o => (Ok o, w)
    | None => (Raise (HTTPException 404 detail), w)
    end.
Proof.
  unfold get_in, bind, global, load, contains, raise.
  destruct (getitem (rows t w) id) eqn:Hget; cbn [negb]; rewrite ?Hget;
    reflexivity.
Qed.

Lemma delete_in_run t detail id w :
  delete_in t detail id w =
    match getitem (rows t w) id with
    | Some _ => (Ok tt, set_rows t (delitem (rows t w) id) w)
    | None => (Raise (HTTPException 404 detail), w)
    end.
Proof.
  unfold delete_in, bind, global, remove, contains, raise.
  destruct (getitem (rows t w) id) eqn:Hget; cbn [negb]; rewrite ?Hget;
    reflexivity.
Qed.

Lemma update_in_absent t read detail id u w :
  getitem (rows t w) id = None ->
  update_in t read detail id u w = (Raise (HTTPException 404 detail), w).
Proof.
  intros Hget. unfold update_in, bind, global, contains, raise.
  rewrite Hget. reflexivity.
Qed.

(** The merged dictionary of an update is again an instance when its
    supplied values are accepted. *)
Lemma merged_dom read (d old : fields) :
  is_instance read old = true ->
  dom d ⊆ list_to_set (names read) ->
  dom (d ∪ old) = list_to_set (names read).
Proof.
  intros Hold Hdom. rewrite dom_union_L, (is_instance_dom _ _ Hold).
  apply subseteq_union_1_L, Hdom.
Qed.

Lemma merged_is_instance read (d old : fields) :
  is_instance read old = true ->
  dom d ⊆ list_to_set (names read) ->
  is_instance read (d ∪ old) = accepts read d.
Proof.
  intros Hold Hdom. unfold is_instance.
  rewrite (accepts_union _ _ _ (is_instance_accepts _ _ Hold)).
  rewrite bool_decide_eq_true_2; [reflexivity|].
  apply merged_dom; assumption.
Qed.

Lemma construct_run s kw w om w' :
  validate s kw w = (Ok om, w') ->
  construct s kw w =
    match om with
    | Some m => (Ok m, w')
    | None => (Raise ValidationError, w')
    end.
Proof.
  intros H. unfold construct, bind. rewrite H. destruct om; reflexivity.
Qed.

(** An update of a stored instance reads neither the clock nor uuid4: it
    stores the merged dictionary, or raises when a supplied value is not
    accepted by the Read model. *)
Lemma update_in_present t read detail id u w old :
  getitem (rows t w) id = Some old ->
  is_instance read old = true ->
  dom (model_dump_exclude_unset u) ⊆ list_to_set (names read) ->
  update_in t read detail id u w =
    if accepts read (model_dump_exclude_unset u) then
      (Ok (model_dump_exclude_unset u ∪ old),
       set_rows t (setitem (rows t w) id (model_dump_exclude_unset u ∪ old)) w)
    else (Raise ValidationError, w).
Proof.
  intros Hget Hold Hdom.
  pose proof (merged_dom _ _ _ Hold Hdom) as Hm.
  assert (Hval : validate read (model_dump_exclude_unset u ∪ old) w =
                 (Ok (if accepts read (model_dump_exclude_unset u)
                      then Some (model_dump_exclude_unset u ∪ old) else None), w)).
  { rewrite validate_present.
    - rewrite (accepts_union _ _ _ (is_instance_accepts _ _ Hold)).
      rewrite pick_id by (rewrite Hm; reflexivity). reflexivity.
    - intros f Hf. apply elem_of_dom. rewrite Hm. apply elem_of_list_to_set.
      apply list_elem_of_In, in_map, Hf. }
  unfold update_in, global, contains, load, model_dump, dict_update.
  unfold bind at 1. rewrite Hget. cbn [negb].
  unfold bind at 1. rewrite Hget.
  unfold bind at 1. rewrite (construct_run _ _ _ _ _ Hval).
  destruct (accepts read (model_dump_exclude_unset u)); [|reflexivity].
  unfold bind, store. rewrite rows_set_rows, getitem_setitem_eq. reflexivity.
Qed.

Lemma update_names r :
  (list_to_set (names (update_model r)) : gset string)
    ⊆ list_to_set (names (read_model r)).
Proof. destruct r; apply (bool_decide_unpack _); vm_compute; exact I. Qed.

Lemma update_dom r u :
  is_update (update_model r) u = true ->
  dom (model_dump_exclude_unset u) ⊆ list_to_set (names (read_model r)).
Proof.
  intros Hu. etransitivity; [apply (dom_exclude_unset _ _ Hu)|apply update_names].
Qed.

(** Update on any of the four resources. *)
Lemma update_run r w id u :
  wf_world w = true ->
  is_update (update_model r) u = true ->
  update r id u w =
    match getitem (records r w) id with
    | None => (Raise (HTTPException 404 (not_found r)), w)
    | Some old =>
        if accepts (read_model r) (model_dump_exclude_unset u) then
          (Ok (model_dump_exclude_unset u ∪ old),
           set_rows (table_of r)
             (setitem (records r w) id (model_dump_exclude_unset u ∪ old)) w)
        else (Raise ValidationError, w)
    end.
Proof.
  intros Hwf Hu. rewrite update_unfold. unfold records.
  destruct (getitem (rows (table_of r) w) id) as [old|] eqn:Hget.
  - apply update_in_present; auto.
    + apply (wf_world_getitem r w id old Hwf Hget).
    + apply update_dom, Hu.
  - apply update_in_absent, Hget.
Qed.

(** The server-managed fields, when the keyword arguments supply none of
    them: one uuid4 draw, then two clock reads. *)
Lemma validate_server_fields (kw : fields) w :
  kw !! "id" = None -> kw !! "created_at" = None -> kw !! "updated_at" = None ->
  validate server_fields kw w = (Ok (Some (server_values w)), advance 2 1 w).
Proof.
  intros H1 H2 H3. unfold server_fields. cbn [validate].
  unfold validate_field. cbn [fname fdef]. rewrite H1, H2, H3. reflexivity.
Qed.

Lemma validate_timestamps (kw : fields) w :
  kw !! "created_at" = None -> kw !! "updated_at" = None ->
  validate timestamps kw w = (Ok (Some (stamps w)), advance 2 0 w).
Proof.
  intros H2 H3. unfold timestamps. cbn [validate].
  unfold validate_field. cbn [fname fdef]. rewrite H2, H3. reflexivity.
Qed.

(** The fields of the payload's own model, validated on an instance. *)
Lemma validate_instance s o w :
  is_instance s o = true -> validate s o w = (Ok (Some o), w).
Proof.
  intros Hi. rewrite validate_present.
  - rewrite (is_instance_accepts _ _ Hi).
    rewrite pick_id by (rewrite (is_instance_dom _ _ Hi); reflexivity).
    reflexivity.
  - intros f Hf. apply (is_instance_present _ _ _ Hi Hf).
Qed.

Lemma lookup_server_values_id w :
  server_values w !! "id" = Some (VUuid (uuids w (uuid_draws w))).
Proof. unfold server_values. apply lookup_insert_eq. Qed.

Lemma lookup_stamps_created w :
  stamps w !! "created_at" = Some (VDatetime (clock w (clock_reads w))).
Proof. unfold stamps. apply lookup_insert_eq. Qed.

Lemma lookup_stamps_updated w :
  stamps w !! "updated_at" = Some (VDatetime (clock w (S (clock_reads w)))).
Proof.
  unfold stamps. rewrite lookup_insert_ne by discriminate.
  apply lookup_insert_eq.
Qed.

Lemma lookup_stamps_other w n :
  n <> "created_at" -> n <> "updated_at" -> stamps w !! n = None.
Proof.
  intros H1 H2. unfold stamps.
  rewrite !lookup_insert_ne by congruence. apply lookup_empty.
Qed.

Lemma lookup_server_values_created w :
  server_values w !! "created_at" = Some (VDatetime (clock w (clock_reads w))).
Proof.
  unfold server_values. rewrite lookup_insert_ne by discriminate.
  apply lookup_stamps_created.
Qed.

Lemma lookup_server_values_updated w :
  server_values w !! "updated_at"
  = Some (VDatetime (clock w (S (clock_reads w)))).
Proof.
  unfold server_values. rewrite lookup_insert_ne by discriminate.
  apply lookup_stamps_updated.
Qed.

Lemma lookup_server_values_other w n :
  n <> "id" -> n <> "created_at" -> n <> "updated_at" ->
  server_values w !! n = None.
Proof.
  intros H0 H1 H2. unfold server_values.
  rewrite lookup_insert_ne by congruence. apply lookup_stamps_other; assumption.
Qed.

(** Create on a table whose Read model adds the three server fields to the
    payload's model. *)
Lemma create_in_run t base payload w :
  is_instance base payload = true ->
  "id" ∉ names base -> "created_at" ∉ names base -> "updated_at" ∉ names base ->
  create_in t (base ++ server_fields)%list payload w =
    (Ok (payload ∪ server_values w),
     set_rows t (setitem (rows t w) (uuids w (uuid_draws w))
                         (payload ∪ server_values w))
              (advance 2 1 w)).
Proof.
  intros Hi N1 N2 N3.
  pose proof (is_instance_absent _ _ _ Hi N1) as A1.
  pose proof (is_instance_absent _ _ _ Hi N2) as A2.
  pose proof (is_instance_absent _ _ _ Hi N3) as A3.
  unfold create_in, model_dump. unfold bind at 1.
  rewrite (construct_run _ _ _ _ _
             (validate_app _ _ _ _ _ _ _ _ (validate_instance _ _ w Hi)
                (validate_server_fields _ w A1 A2 A3))).
  unfold bind at 1. unfold attr_id.
  rewrite lookup_union, A1, lookup_server_values_id.
  cbn [union option_union union_with option_union_with ret].
  unfold ret, bind, store. rewrite rows_advance. reflexivity.
Qed.

Lemma read_model_server_fields r :
  r <> Address -> read_model r = (create_model r ++ server_fields)%list.
Proof. destruct r; intros H; try reflexivity; congruence. Qed.

Lemma create_model_no_server_fields r :
  r <> Address ->
  ("id" ∉ names (create_model r)) /\ ("created_at" ∉ names (create_model r))
  /\ ("updated_at" ∉ names (create_model r)).
Proof.
  destruct r; intros H; try congruence;
    repeat split; apply (bool_decide_unpack _); vm_compute; exact I.
Qed.

(** Create on persons, courses and assignments. *)
Lemma create_run r payload w :
  r <> Address ->
  is_instance (create_model r) payload = true ->
  create r payload w =
    (Ok (payload ∪ server_values w),
     set_rows (table_of r)
              (setitem (records r w) (uuids w (uuid_draws w))
                       (payload ∪ server_values w))
              (advance 2 1 w)).
Proof.
  intros Hr Hi. rewrite (create_unfold r Hr), (read_model_server_fields r Hr).
  destruct (create_model_no_server_fields r Hr) as (N1 & N2 & N3).
  apply create_in_run; assumption.
Qed.

Lemma address_payload_id address :
  is_instance AddressCreate address = true ->
  exists id, address !! "id" = Some (VUuid id).
Proof.
  intros Hi.
  destruct (is_instance_present _ _ (Field "id" TUuid (DefaultFactory uuid4)) Hi)
    as [v Hv]; [left; reflexivity|].
  cbn [fname] in Hv.
  apply is_instance_accepts in Hi. unfold accepts in Hi.
  cbn [AddressCreate AddressBase forallb] in Hi.
  apply andb_true_iff in Hi as [Hid _].
  unfold typed_in in Hid. cbn [fname ftyp] in Hid. rewrite Hv in Hid.
  destruct v; try discriminate. eauto.
Qed.

(** Create on addresses. *)
Lemma create_address_run address id w :
  is_instance AddressCreate address = true ->
  address !! "id" = Some (VUuid id) ->
  create_address address w =
    if contains (addresses w) id then
      (Raise (HTTPException 400 "Address with this ID already exists"), w)
    else
      (Ok (address ∪ stamps w),
       set_rows Addresses (setitem (addresses w) id (address ∪ stamps w))
                (advance 2 0 w)).
Proof.
  intros Hi Hid.
  assert (A2 : address !! "created_at" = None).
  { apply (is_instance_absent _ _ _ Hi).
    apply (bool_decide_unpack _); vm_compute; exact I. }
  assert (A3 : address !! "updated_at" = None).
  { apply (is_instance_absent _ _ _ Hi).
    apply (bool_decide_unpack _); vm_compute; exact I. }
  unfold create_address, attr_id, model_dump. rewrite Hid.
  unfold bind at 1. unfold ret at 1. unfold bind at 1. unfold global at 1.
  change (rows Addresses w) with (addresses w).
  destruct (contains (addresses w) id) eqn:Hc; [reflexivity|].
  unfold bind at 1.
  change AddressRead with (AddressCreate ++ timestamps)%list.
  rewrite (construct_run _ _ _ _ _
             (validate_app _ _ _ _ _ _ _ _ (validate_instance _ _ w Hi)
                (validate_timestamps _ w A2 A3))).
  unfold bind, ret, store, load.
  rewrite rows_set_rows, getitem_setitem_eq. reflexivity.
Qed.

(* ===================================================================== *)
(** * The request boundary of an update *)
(* ===================================================================== *)

Lemma dom_fill s kw :
  all_optional s = true -> dom (fill s kw) = list_to_set (names s).
Proof.
  induction s as [|f s IH]; cbn [fill all_optional].
  - intros _. apply dom_empty_L.
  - intros [[Hd _]%andb_true_iff Hs]%andb_true_iff.
    change (names (f :: s)) with (fname f :: names s). cbn [list_to_set].
    destruct (fdef f) as [|v|]; try discriminate.
    destruct (kw !! fname f); rewrite dom_insert_L, IH by exact Hs; reflexivity.
Qed.

Lemma lookup_fill_notin s kw n : n ∉ names s -> fill s kw !! n = None.
Proof.
  induction s as [|f s IH]; cbn [fill]; intros Hn.
  - apply lookup_empty.
  - change (names (f :: s)) with (fname f :: names s) in Hn.
    apply not_elem_of_cons in Hn as [Hne Hn].
    destruct (kw !! fname f), (fdef f);
      rewrite ?lookup_insert_ne by congruence; auto.
Qed.

Lemma accepts_insert_notin s (m : fields) n v :
  n ∉ names s -> accepts s (<[n := v]> m) = accepts s m.
Proof.
  unfold accepts. induction s as [|f s IH]; cbn [forallb]; [reflexivity|].
  change (names (f :: s)) with (fname f :: names s).
  intros [Hne Hn]%not_elem_of_cons. rewrite IH by exact Hn. f_equal.
  unfold typed_in. rewrite lookup_insert_ne by congruence. reflexivity.
Qed.

Lemma accepts_fill s kw :
  all_optional s = true -> accepts s kw = true -> accepts s (fill s kw) = true.
Proof.
  induction s as [|f s IH]; [reflexivity|].
  cbn [all_optional]. intros [[Hd Hnd]%andb_true_iff Hs]%andb_true_iff.
  apply negb_true_iff, bool_decide_eq_false in Hnd.
  unfold accepts at 1. cbn [forallb]. intros [Hf Hkw]%andb_true_iff.
  specialize (IH Hs Hkw). cbn [fill].
  destruct (fdef f) as [|v|]; try discriminate.
  unfold typed_in in Hf.
  destruct (kw !! fname f) as [x|].
  - unfold accepts. cbn [forallb]. fold (accepts s (<[fname f := x]> (fill s kw))).
    rewrite accepts_insert_notin, IH by exact Hnd.
    unfold typed_in. rewrite lookup_insert_eq, Hf. reflexivity.
  - unfold accepts. cbn [forallb]. fold (accepts s (<[fname f := v]> (fill s kw))).
    rewrite accepts_insert_notin, IH by exact Hnd.
    unfold typed_in. rewrite lookup_insert_eq, Hd. reflexivity.
Qed.

Lemma validate_all_optional s kw w :
  all_optional s = true ->
  validate s kw w = (Ok (if accepts s kw then Some (fill s kw) else None), w).
Proof.
  induction s as [|f s IH]; [reflexivity|].
  cbn [all_optional]. intros [[Hd _]%andb_true_iff Hs]%andb_true_iff.
  cbn [validate fill]. unfold accepts. cbn [forallb].
  fold (accepts s kw). unfold typed_in at 1. unfold validate_field.
  destruct (fdef f) as [|v|]; try discriminate.
  destruct (kw !! fname f) as [x|]; cbn [default_value];
    unfold bind at 1; unfold ret at 1; unfold bind at 1; rewrite (IH Hs);
    unfold ret.
  - destruct (has_type x (ftyp f)); cbn [andb]; [|reflexivity].
    destruct (accepts s kw); reflexivity.
  - cbn [andb]. destruct (accepts s kw); reflexivity.
Qed.

(** The Update instance of a request body: the body's declared keys, the
    rest unset; building it reads neither the clock nor uuid4. *)
Lemma parse_update_run s body w :
  all_optional s = true ->
  parse_update s body w =
    if accepts s body then
      (Ok (mkUpdate (fill s body) (dom body ∩ list_to_set (names s))), w)
    else (Raise ValidationError, w).
Proof.
  intros Hs. unfold parse_update, bind.
  rewrite (construct_run _ _ _ _ _ (validate_all_optional s body w Hs)).
  destruct (accepts s body); reflexivity.
Qed.

Lemma update_model_all_optional r : all_optional (update_model r) = true.
Proof. destruct r; reflexivity. Qed.

(** What the framework hands to an update handler is an instance of the
    resource's Update model whatever keys the body carries. *)
Lemma parse_update_is_update r body w u :
  fst (parse_update (update_model r) body w) = Ok u ->
  is_update (update_model r) u = true.
Proof.
  rewrite (parse_update_run _ _ _ (update_model_all_optional r)).
  destruct (accepts (update_model r) body) eqn:Hacc; [|discriminate].
  cbn [fst]. intros [= <-]. unfold is_update, is_instance. cbn [values fields_set].
  rewrite (dom_fill _ _ (update_model_all_optional r)).
  rewrite (accepts_fill _ _ (update_model_all_optional r) Hacc).
  rewrite !bool_decide_eq_true_2; [reflexivity| |reflexivity].
  apply intersection_subseteq_r.
Qed.

(** A key of the body that the Update model does not declare is not part
    of what the handler merges. *)
Lemma parse_update_ignores_undeclared r body w u n :
  fst (parse_update (update_model r) body w) = Ok u ->
  n ∉ names (update_model r) ->
  model_dump_exclude_unset u !! n = None.
Proof.
  intros Hp Hn. pose proof (parse_update_is_update _ _ _ _ Hp) as Hu.
  apply not_elem_of_dom. intros Hin.
  apply (dom_exclude_unset _ _ Hu), elem_of_list_to_set in Hin. auto.
Qed.

(* ===================================================================== *)
(** * Well-formed states are preserved *)
(* ===================================================================== *)

Lemma wf_world_set_rows r d w :
  wf_world w = true -> wf_rows (read_model r) d = true ->
  wf_world (set_rows (table_of r) d w) = true.
Proof.
  unfold wf_world. rewrite !andb_true_iff. intros [[[H1 H2] H3] H4] Hd.
  destruct r; cbn [table_of set_rows read_model persons addresses courses
                   assignments] in *; auto.
Qed.

Lemma wf_world_advance c u w : wf_world (advance c u w) = wf_world w.
Proof. reflexivity. Qed.

Lemma wf_start clk ids : wf_world (start clk ids) = true.
Proof. reflexivity. Qed.

Lemma update_preserves_wf r w id u :
  wf_world w = true -> is_update (update_model r) u = true ->
  wf_world (snd (update r id u w)) = true.
Proof.
  intros Hwf Hu. rewrite (update_run r w id u Hwf Hu).
  destruct (getitem (records r w) id) as [old|] eqn:Hget; [|exact Hwf].
  destruct (accepts (read_model r) (model_dump_exclude_unset u)) eqn:Hacc;
    [|exact Hwf].
  cbn [snd]. apply wf_world_set_rows; [exact Hwf|].
  apply wf_rows_setitem; [apply wf_world_rows, Hwf|].
  rewrite merged_is_instance; [exact Hacc| |apply update_dom, Hu].
  apply (wf_world_getitem r w id old Hwf Hget).
Qed.

Lemma delete_preserves_wf r del w id :
  delete r = Some del -> wf_world w = true -> wf_world (snd (del id w)) = true.
Proof.
  intros Hdel Hwf. rewrite (delete_unfold r del Hdel), delete_in_run.
  destruct (getitem (rows (table_of r) w) id); [|exact Hwf].
  cbn [snd]. apply wf_world_set_rows; [exact Hwf|].
  apply wf_rows_delitem, wf_world_rows, Hwf.
Qed.

Lemma get_preserves_state r w id : snd (get r id w) = w.
Proof.
  rewrite get_unfold, get_in_run.
  destruct (getitem (rows (table_of r) w) id); reflexivity.
Qed.

(* ===================================================================== *)
(** * Update *)
(* ===================================================================== *)

(** An update never reads the clock: the process has made as many clock
    reads after it as before, and the stored [updated_at] of a record
    that was updated is the one it had. *)
Lemma update_keeps_updated_at r w id u old new w' :
  wf_world w = true -> is_update (update_model r) u = true ->
  getitem (records r w) id = Some old ->
  update r id u w = (Ok new, w') ->
  new !! "updated_at" = old !! "updated_at" /\ clock_reads w' = clock_reads w.
Proof.
  intros Hwf Hu Hget. rewrite (update_run r w id u Hwf Hu), Hget.
  destruct (accepts (read_model r) (model_dump_exclude_unset u)); [|discriminate].
  intros [= <- <-]. split.
  - rewrite lookup_union.
    replace (model_dump_exclude_unset u !! "updated_at") with (@None value).
    + apply (left_id_L None union).
    + symmetry. apply not_elem_of_dom. intros Hin.
      apply (dom_exclude_unset _ _ Hu), elem_of_list_to_set in Hin.
      revert Hin. destruct r; apply (bool_decide_unpack _); vm_compute; exact I.
  - destruct r; reflexivity.
Qed.

(** C1: a successful Update is claimed to set [updated_at] to the current
    time, so that after a create [updated_at > created_at]. Evaluated on the
    example scenario: the course is created in one instant (both
    timestamps 1000), the update [{"credits": 4}] arrives an hour later
    (the clock then reads 3600001000), and the record returned and stored
    has the new credits but still [updated_at] 1000, equal to
    [created_at]; the update did not read the clock at all. *)
Theorem C1_update_course_leaves_updated_at :
  let w := one_course coarse_clock in
  courses w = [(100, stored_course 1000 1000 3)]
  /\ clock w (clock_reads w) = 3600001000
  /\ update_course 100 credits_4 w =
       (Ok (stored_course 1000 1000 4),
        mkWorld [] [] [(100, stored_course 1000 1000 4)] []
                coarse_clock (clock_reads w) fresh_uuids 1)
  /\ stored_course 1000 1000 4 !! "updated_at" = Some (VDatetime 1000)
  /\ stored_course 1000 1000 4 !! "created_at" = Some (VDatetime 1000).
Proof.
  cbv zeta. repeat split; by_evaluation.
Qed.

(** C9: Update with an empty partial payload returns the stored record as
    it is, every field included, and leaves the whole state as it was. *)
Theorem C9_empty_update_is_identity r w id old u :
  wf_world w = true ->
  is_update (update_model r) u = true ->
  getitem (records r w) id = Some old ->
  fields_set u = ∅ ->
  update r id u w = (Ok old, w).
Proof.
  intros Hwf Hu Hget Hset. rewrite (update_run r w id u Hwf Hu), Hget.
  rewrite (exclude_unset_empty u Hset), accepts_empty.
  rewrite (left_id_L ∅ (∪)), (setitem_same _ _ _ Hget).
  unfold records. rewrite set_rows_same. reflexivity.
Qed.

Lemma C9_empty_update_is_identity_witness :
  update Course 100 no_change (one_course ticking_clock)
  = (Ok (stored_course 1000 1001 3), one_course ticking_clock).
Proof.
  apply (C9_empty_update_is_identity Course (one_course ticking_clock) 100
           (stored_course 1000 1001 3) no_change); by_evaluation.
Defined.

(** C8: applying Update with one payload a second time returns what the
    first application returned and leaves the state the first one
    produced: the final field values are those of a single
    application. *)
Theorem C8_update_is_idempotent r w id u :
  wf_world w = true ->
  is_update (update_model r) u = true ->
  update r id u (snd (update r id u w)) = update r id u w.
Proof.
  intros Hwf Hu.
  pose proof (update_preserves_wf r w id u Hwf Hu) as Hwf1.
  rewrite (update_run r _ id u Hwf1 Hu).
  rewrite (update_run r w id u Hwf Hu).
  destruct (getitem (records r w) id) as [old|] eqn:Hget.
  - destruct (accepts (read_model r) (model_dump_exclude_unset u)) eqn:Hacc;
      cbn [snd].
    + unfold records. rewrite rows_set_rows, getitem_setitem_eq.
      rewrite (assoc_L (∪)), (idemp_L (∪)).
      rewrite setitem_setitem, set_rows_set_rows. reflexivity.
    + rewrite Hget. reflexivity.
  - cbn [snd]. rewrite Hget. reflexivity.
Qed.

Lemma C8_update_is_idempotent_witness :
  update Course 100 credits_4
    (snd (update Course 100 credits_4 (one_course ticking_clock)))
  = update Course 100 credits_4 (one_course ticking_clock).
Proof.
  apply (C8_update_is_idempotent Course (one_course ticking_clock) 100 credits_4);
    by_evaluation.
Defined.

(* ===================================================================== *)
(** * List *)
(* ===================================================================== *)

Lemma filter_twice {A} (p q : A -> bool) (l : list A) :
  List.filter p (List.filter q l) = List.filter (fun x => q x && p x) l.
Proof.
  induction l as [|x l IH]; cbn [List.filter]; [reflexivity|].
  destruct (q x); cbn [List.filter andb]; rewrite IH; reflexivity.
Qed.

Lemma filter_same {A} (p q : A -> bool) (l : list A) :
  (forall x, p x = q x) -> List.filter p l = List.filter q l.
Proof.
  intros Hpq. induction l as [|x l IH]; cbn [List.filter]; [reflexivity|].
  rewrite Hpq, IH. reflexivity.
Qed.

Lemma filter_all {A} (l : list A) : List.filter (fun _ => true) l = l.
Proof.
  induction l as [|x l IH]; cbn [List.filter]; [reflexivity|].
  rewrite IH. reflexivity.
Qed.

(** One conditional comprehension is a filter by the optional test. *)
Lemma keep_supplied {A} (x : option A) (p : A -> fields -> bool) results :
  keep x p results = List.filter (fun o => supplied x (fun a => p a o)) results.
Proof.
  destruct x; cbn [keep supplied]; [reflexivity|].
  symmetry. apply filter_all.
Qed.

Ltac list_by_conjunction :=
  intros; unfold bind, global, ret;
  rewrite !keep_supplied, !filter_twice; do 2 f_equal;
  apply filter_same; intros o; rewrite !andb_assoc; reflexivity.

Lemma list_addresses_run street city state postal_code country w :
  list_addresses street city state postal_code country w =
    (Ok (List.filter (address_matches street city state postal_code country)
                     (dict_values (addresses w))), w).
Proof. unfold list_addresses. list_by_conjunction. Qed.

Lemma list_persons_run uni first_name last_name email phone birth_date city
    country w :
  list_persons uni first_name last_name email phone birth_date city country w =
    (Ok (List.filter
           (person_matches uni first_name last_name email phone birth_date
                           city country)
           (dict_values (persons w))), w).
Proof. unfold list_persons. list_by_conjunction. Qed.

Lemma list_courses_run course_code title instructor credits semester w :
  list_courses course_code title instructor credits semester w =
    (Ok (List.filter (course_matches course_code title instructor credits semester)
                     (dict_values (courses w))), w).
Proof. unfold list_courses. list_by_conjunction. Qed.

Lemma list_assignments_run title assignment_type course_id due_date
    assigned_date w :
  list_assignments title assignment_type course_id due_date assigned_date w =
    (Ok (List.filter
           (assignment_matches title assignment_type course_id due_date
                               assigned_date)
           (dict_values (assignments w))), w).
Proof. unfold list_assignments. list_by_conjunction. Qed.

(** C6: each List handler returns, without ever failing and without
    changing the state, exactly the stored records that satisfy every
    supplied filter, in the dictionary's insertion order (the filtered
    sequence of its values); with no filter that is every record. String,
    integer and identifier filters are exact equality with the field, date
    filters compare with the textual rendering of the stored date, and the
    city and country filters of persons ask for at least one embedded
    address. *)
Theorem C6_list_returns_the_matching_records_in_order w :
  (forall street city state postal_code country,
      list_addresses street city state postal_code country w =
        (Ok (List.filter
               (address_matches street city state postal_code country)
               (dict_values (addresses w))), w))
  /\ (forall uni first_name last_name email phone birth_date city country,
      list_persons uni first_name last_name email phone birth_date city country w =
        (Ok (List.filter
               (person_matches uni first_name last_name email phone birth_date
                               city country)
               (dict_values (persons w))), w))
  /\ (forall course_code title instructor credits semester,
      list_courses course_code title instructor credits semester w =
        (Ok (List.filter
               (course_matches course_code title instructor credits semester)
               (dict_values (courses w))), w))
  /\ (forall title assignment_type course_id due_date assigned_date,
      list_assignments title assignment_type course_id due_date assigned_date w =
        (Ok (List.filter
               (assignment_matches title assignment_type course_id due_date
                                   assigned_date)
               (dict_values (assignments w))), w))
  /\ list_addresses None None None None None w
     = (Ok (dict_values (addresses w)), w)
  /\ list_persons None None None None None None None None w
     = (Ok (dict_values (persons w)), w)
  /\ list_courses None None None None None w = (Ok (dict_values (courses w)), w)
  /\ list_assignments None None None None None w
     = (Ok (dict_values (assignments w)), w).
Proof.
  split; [intros; apply list_addresses_run|].
  split; [intros; apply list_persons_run|].
  split; [intros; apply list_courses_run|].
  split; [intros; apply list_assignments_run|].
  rewrite list_addresses_run, list_persons_run, list_courses_run,
    list_assignments_run.
  cbn [address_matches person_matches course_matches assignment_matches
       supplied andb].
  rewrite !filter_all. repeat split.
Qed.

(** Membership form: a record is listed exactly when it is stored and
    satisfies every supplied filter. *)
Lemma list_courses_exactly course_code title instructor credits semester w c :
  (exists l, fst (list_courses course_code title instructor credits semester w)
             = Ok l /\ (In c l <->
                        In c (dict_values (courses w))
                        /\ course_matches course_code title instructor credits
                                          semester c = true)).
Proof.
  rewrite list_courses_run. eexists. split; [reflexivity|]. apply filter_In.
Qed.

(* ===================================================================== *)
(** * Update: what is merged and what is kept *)
(* ===================================================================== *)

Lemma update_model_has_no_server_fields r :
  ("id" ∉ names (update_model r)) /\ ("created_at" ∉ names (update_model r))
  /\ ("updated_at" ∉ names (update_model r)).
Proof.
  destruct r; repeat split; apply (bool_decide_unpack _); vm_compute; exact I.
Qed.

Lemma exclude_unset_undeclared s u n :
  is_update s u = true -> n ∉ names s -> model_dump_exclude_unset u !! n = None.
Proof.
  intros Hu Hn. apply not_elem_of_dom. intros Hin.
  apply (dom_exclude_unset _ _ Hu), elem_of_list_to_set in Hin. auto.
Qed.

Lemma exclude_unset_supplied s u n :
  is_update s u = true -> n ∈ fields_set u ->
  exists v, values u !! n = Some v /\ model_dump_exclude_unset u !! n = Some v.
Proof.
  intros Hu Hn. pose proof Hu as Hu'. unfold is_update in Hu'.
  apply andb_true_iff in Hu' as [Hi Hset]. apply bool_decide_eq_true in Hset.
  assert (Hdom : n ∈ dom (values u)).
  { rewrite (is_instance_dom _ _ Hi). apply Hset, Hn. }
  apply elem_of_dom in Hdom as [v Hv]. exists v. split; [exact Hv|].
  rewrite lookup_exclude_unset, decide_True by exact Hn. exact Hv.
Qed.

(** C3: a successful update, whatever keys its request body carried
    (an identifier and a creation time included), returns and stores under
    the same key a record whose [id] and [created_at] are those of the
    record before the update, and touches no other row. *)
Theorem C3_update_keeps_id_and_created_at r w id body u old new :
  wf_world w = true ->
  fst (parse_update (update_model r) body w) = Ok u ->
  getitem (records r w) id = Some old ->
  fst (update r id u w) = Ok new ->
  new !! "id" = old !! "id"
  /\ new !! "created_at" = old !! "created_at"
  /\ getitem (records r (snd (update r id u w))) id = Some new
  /\ (forall k, k <> id ->
                getitem (records r (snd (update r id u w))) k
                = getitem (records r w) k).
Proof.
  intros Hwf Hparse Hget.
  pose proof (parse_update_is_update _ _ _ _ Hparse) as Hu.
  destruct (update_model_has_no_server_fields r) as (N1 & N2 & _).
  rewrite (update_run r w id u Hwf Hu), Hget.
  destruct (accepts (read_model r) (model_dump_exclude_unset u)); [|discriminate].
  cbn [fst snd]. intros [= <-].
  rewrite !lookup_union.
  rewrite (exclude_unset_undeclared _ _ _ Hu N1).
  rewrite (exclude_unset_undeclared _ _ _ Hu N2).
  rewrite !(left_id_L None union).
  unfold records. rewrite rows_set_rows, getitem_setitem_eq.
  repeat split. intros k Hk. apply getitem_setitem_ne, Hk.
Qed.

Lemma C3_update_keeps_id_and_created_at_witness :
  stored_course 1000 1001 4 !! "id" = stored_course 1000 1001 3 !! "id"
  /\ stored_course 1000 1001 4 !! "created_at"
     = stored_course 1000 1001 3 !! "created_at"
  /\ getitem (records Course
                (snd (update Course 100 credits_4 (one_course ticking_clock))))
             100
     = Some (stored_course 1000 1001 4)
  /\ (forall k, k <> 100 ->
        getitem (records Course
                   (snd (update Course 100 credits_4 (one_course ticking_clock))))
                k
        = getitem (records Course (one_course ticking_clock)) k).
Proof.
  apply (C3_update_keeps_id_and_created_at Course (one_course ticking_clock) 100
           body_with_id credits_4 (stored_course 1000 1001 3)
           (stored_course 1000 1001 4)); by_evaluation.
Defined.

(** C2, as stated, at the update [{"title": null}] of the example course:
    the title is supplied, and it does not overwrite the stored title; the
    constructor of the Read model rejects the merged dictionary, the
    handler raises, and the stored record keeps its title. *)
Lemma C2_supplied_null_does_not_overwrite :
  let w := one_course ticking_clock in
  is_update CourseUpdate null_title = true
  /\ model_dump_exclude_unset null_title !! "title" = Some VNone
  /\ getitem (courses w) 100 = Some (stored_course 1000 1001 3)
  /\ update_course 100 null_title w = (Raise ValidationError, w)
  /\ stored_course 1000 1001 3 !! "title" = Some (VStr "Cloud Computing").
Proof.
  cbv zeta. repeat split; by_evaluation.
Qed.

(** C2, amended: when every supplied value has the type the Read model
    declares for its field (so no null is supplied for a field that is
    not nullable), Update succeeds, the record it returns and stores has
    the payload's value in every supplied field, an empty string or a null
    for a nullable field included, and the stored value in every other
    field. *)
Theorem C2_update_merges_the_supplied_fields r w id u old :
  wf_world w = true ->
  is_update (update_model r) u = true ->
  getitem (records r w) id = Some old ->
  accepts (read_model r) (model_dump_exclude_unset u) = true ->
  exists new,
    update r id u w =
      (Ok new, set_rows (table_of r) (setitem (records r w) id new) w)
    /\ (forall n, n ∈ fields_set u -> new !! n = values u !! n)
    /\ (forall n, n ∉ fields_set u -> new !! n = old !! n).
Proof.
  intros Hwf Hu Hget Hacc. eexists. split; [|split].
  - rewrite (update_run r w id u Hwf Hu), Hget, Hacc. reflexivity.
  - intros n Hn. destruct (exclude_unset_supplied _ _ _ Hu Hn) as (v & Hv & Hd).
    rewrite lookup_union, Hd, Hv. destruct (old !! n); reflexivity.
  - intros n Hn. rewrite lookup_union, lookup_exclude_unset.
    rewrite decide_False by exact Hn. apply (left_id_L None union).
Qed.

Lemma C2_update_merges_the_supplied_fields_witness :
  exists new,
    update Course 100 blank_description (one_course ticking_clock) =
      (Ok new,
       set_rows (table_of Course)
                (setitem (records Course (one_course ticking_clock)) 100 new)
                (one_course ticking_clock))
    /\ (forall n, n ∈ fields_set blank_description ->
                  new !! n = values blank_description !! n)
    /\ (forall n, n ∉ fields_set blank_description ->
                  new !! n = stored_course 1000 1001 3 !! n).
Proof.
  apply (C2_update_merges_the_supplied_fields Course (one_course ticking_clock)
           100 blank_description (stored_course 1000 1001 3)); by_evaluation.
Defined.

(** The empty string is supplied, so it overwrites. *)
Example blank_description_overwrites :
  exists new,
    fst (update_course 100 blank_description (one_course ticking_clock)) = Ok new
    /\ new !! "description" = Some (VStr "")
    /\ new !! "title" = Some (VStr "Cloud Computing").
Proof.
  eexists (<["description" := VStr ""]> (stored_course 1000 1001 3)).
  repeat split; by_evaluation.
Qed.

(* ===================================================================== *)
(** * Errors *)
(* ===================================================================== *)

Lemma has_type_optional v t :
  has_type v (TOptional t) = true -> v = VNone \/ has_type v t = true.
Proof. destruct v; cbn [has_type]; auto. Qed.

Lemma update_model_relaxes r : relaxes (update_model r) (read_model r) = true.
Proof. destruct r; vm_compute; reflexivity. Qed.

Lemma accepts_exclude_unset s u :
  is_update s u = true -> accepts s (model_dump_exclude_unset u) = true.
Proof.
  intros Hu. pose proof Hu as Hu'. unfold is_update in Hu'.
  apply andb_true_iff in Hu' as [Hi _]. apply is_instance_accepts in Hi.
  unfold accepts in *. rewrite forallb_forall in *. intros f Hf.
  specialize (Hi f Hf). unfold typed_in in *.
  rewrite lookup_exclude_unset. destruct (decide (fname f ∈ fields_set u)); auto.
Qed.

(** The one way an update of a stored record is rejected: the payload
    supplies null for a field the Read model does not declare nullable. *)
Lemma rejected_update_supplies_null r u :
  is_update (update_model r) u = true ->
  accepts (read_model r) (model_dump_exclude_unset u) = false ->
  exists f, In f (read_model r)
            /\ fname f ∈ fields_set u
            /\ values u !! fname f = Some VNone
            /\ has_type VNone (ftyp f) = false.
Proof.
  intros Hu Hrej.
  pose proof (accepts_exclude_unset _ _ Hu) as Hacc.
  pose proof (update_model_relaxes r) as Hrel.
  pose proof (dom_exclude_unset _ _ Hu) as Hdom.
  set (d := model_dump_exclude_unset u) in *.
  assert (Hex : exists f, In f (read_model r) /\ typed_in d f = false).
  { unfold accepts in Hrej. clear -Hrej.
    induction (read_model r) as [|f s IH]; [discriminate|].
    cbn [forallb] in Hrej. destruct (typed_in d f) eqn:Hf.
    - destruct (IH Hrej) as (g & Hg & Hgf). exists g. split; [right|]; auto.
    - exists f. split; [left|]; auto. }
  destruct Hex as (f & Hf & Hbad). exists f. split; [exact Hf|].
  unfold typed_in in Hbad. destruct (d !! fname f) as [v|] eqn:Hv; [|discriminate].
  assert (Hin : fname f ∈ names (update_model r)).
  { assert (Hd : fname f ∈ dom d) by (apply elem_of_dom; eauto).
    apply Hdom, elem_of_list_to_set in Hd. exact Hd. }
  apply list_elem_of_In, in_map_iff in Hin as (g & Hname & Hg).
  unfold accepts in Hacc. rewrite forallb_forall in Hacc.
  pose proof (Hacc g Hg) as Hgt. unfold typed_in in Hgt.
  rewrite Hname, Hv in Hgt.
  unfold relaxes in Hrel. rewrite forallb_forall in Hrel.
  pose proof (Hrel g Hg) as Hgf. rewrite forallb_forall in Hgf.
  specialize (Hgf f Hf). rewrite decide_True in Hgf by congruence.
  assert (Hnull : v = VNone).
  { apply orb_true_iff in Hgf as [Hsame|Hopt].
    - apply bool_decide_eq_true in Hsame. congruence.
    - apply bool_decide_eq_true in Hopt. rewrite Hopt in Hgt.
      destruct (has_type_optional _ _ Hgt); congruence. }
  subst v. unfold d in Hv. rewrite lookup_exclude_unset in Hv.
  destruct (decide (fname f ∈ fields_set u)); [|discriminate]. auto.
Qed.

(** C4, as stated, at the update [{"title": null}] of a stored course:
    the handler raises an error that is neither NotFound nor Conflict, and
    the framework answers 500. *)
Lemma C4_update_raises_another_error :
  let w := one_course ticking_clock in
  is_update CourseUpdate null_title = true
  /\ contains (courses w) 100 = true
  /\ update_course 100 null_title w = (Raise ValidationError, w)
  /\ ~ is_not_found (Raise ValidationError : result fields)
  /\ ~ is_conflict (Raise ValidationError : result fields)
  /\ patch_courses_id 100 null_title w = (mkResponse 500 None, w).
Proof.
  cbv zeta. repeat split; try by_evaluation.
  - intros [detail H]. discriminate.
  - intros [detail H]. discriminate.
Qed.

(** C4, amended: Get, Update and Delete fail with NotFound (404) exactly
    when the identifier is absent, and a failed operation leaves the state
    as it was; Create, List, Get and Delete produce no error other than
    Conflict (Create on addresses) and NotFound, and neither does Update
    when every value its payload supplies has the type the Read model
    declares for the field (no null for a field that is not nullable). *)
Theorem C4_not_found_and_conflict r w id u payload :
  wf_world w = true ->
  is_update (update_model r) u = true ->
  is_instance (create_model r) payload = true ->
  (is_not_found (fst (get r id w)) <-> getitem (records r w) id = None)
  /\ (failed (fst (get r id w)) -> is_not_found (fst (get r id w)))
  /\ snd (get r id w) = w
  /\ (is_not_found (fst (update r id u w)) <-> getitem (records r w) id = None)
  /\ (failed (fst (update r id u w)) -> snd (update r id u w) = w)
  /\ (accepts (read_model r) (model_dump_exclude_unset u) = true ->
      failed (fst (update r id u w)) -> is_not_found (fst (update r id u w)))
  /\ (forall del, delete r = Some del ->
        (is_not_found (fst (del id w)) <-> getitem (records r w) id = None)
        /\ (failed (fst (del id w)) ->
            is_not_found (fst (del id w)) /\ snd (del id w) = w))
  /\ (failed (fst (create r payload w)) ->
      r = Address /\ is_conflict (fst (create r payload w))
      /\ snd (create r payload w) = w)
  /\ (forall street city state postal_code country,
        ~ failed (fst (list_addresses street city state postal_code country w)))
  /\ (forall uni first_name last_name email phone birth_date city country,
        ~ failed (fst (list_persons uni first_name last_name email phone
                                    birth_date city country w)))
  /\ (forall course_code title instructor credits semester,
        ~ failed (fst (list_courses course_code title instructor credits
                                    semester w)))
  /\ (forall title assignment_type course_id due_date assigned_date,
        ~ failed (fst (list_assignments title assignment_type course_id
                                        due_date assigned_date w))).
Proof.
  intros Hwf Hu Hpay.
  assert (Hnf : forall (A : Type) (a : A), ~ is_not_found (Ok a)).
  { intros A a [detail H]. discriminate. }
  split; [|split; [|split; [|split; [|split; [|split; [|split; [|split]]]]]]].
  - rewrite get_unfold, get_in_run. unfold records.
    destruct (getitem (rows (table_of r) w) id) as [o|]; cbn [fst]; split.
    + intros H. destruct (Hnf _ _ H).
    + discriminate.
    + reflexivity.
    + intros _. eexists. reflexivity.
  - rewrite get_unfold, get_in_run.
    destruct (getitem (rows (table_of r) w) id) as [o|]; cbn [fst].
    + intros [e H]. discriminate.
    + intros _. eexists. reflexivity.
  - apply get_preserves_state.
  - rewrite (update_run r w id u Hwf Hu).
    destruct (getitem (records r w) id) as [old|]; cbn [fst]; split.
    + destruct (accepts (read_model r) (model_dump_exclude_unset u));
        cbn [fst]; intros [detail H]; discriminate.
    + discriminate.
    + reflexivity.
    + intros _. eexists. reflexivity.
  - rewrite (update_run r w id u Hwf Hu).
    destruct (getitem (records r w) id) as [old|]; [|reflexivity].
    destruct (accepts (read_model r) (model_dump_exclude_unset u));
      [|reflexivity].
    cbn [fst]. intros [e H]. discriminate.
  - intros Hacc. rewrite (update_run r w id u Hwf Hu), Hacc.
    destruct (getitem (records r w) id) as [old|]; cbn [fst].
    + intros [e H]. discriminate.
    + intros _. eexists. reflexivity.
  - intros del Hdel. rewrite (delete_unfold r del Hdel), delete_in_run.
    unfold records.
    destruct (getitem (rows (table_of r) w) id) as [o|]; cbn [fst snd].
    + split; [split|].
      * intros [detail H]. discriminate.
      * discriminate.
      * intros [e H]. discriminate.
    + split; [split|]; auto.
      * intros _. eexists. reflexivity.
      * intros _. split; [eexists|]; reflexivity.
  - destruct (decide (r = Address)) as [->|Hr].
    + destruct (address_payload_id payload Hpay) as [aid Hid].
      cbn [create]. rewrite (create_address_run payload aid w Hpay Hid).
      destruct (contains (addresses w) aid); cbn [fst snd].
      * intros _. split; [reflexivity|]. split; [eexists|]; reflexivity.
      * intros [e H]. discriminate.
    + rewrite (create_run r payload w Hr Hpay). cbn [fst].
      intros [e H]. discriminate.
  - split; [|split; [|split]]; intros.
    + rewrite list_addresses_run. intros [e H]. discriminate.
    + rewrite list_persons_run. intros [e H]. discriminate.
    + rewrite list_courses_run. intros [e H]. discriminate.
    + rewrite list_assignments_run. intros [e H]. discriminate.
Qed.

Lemma C4_not_found_and_conflict_witness :
  let r := Course in
  let w := one_course ticking_clock in
  let id := 100 in
  let u := credits_4 in
  let payload := databases in
  (is_not_found (fst (get r id w)) <-> getitem (records r w) id = None)
  /\ (failed (fst (get r id w)) -> is_not_found (fst (get r id w)))
  /\ snd (get r id w) = w
  /\ (is_not_found (fst (update r id u w)) <-> getitem (records r w) id = None)
  /\ (failed (fst (update r id u w)) -> snd (update r id u w) = w)
  /\ (accepts (read_model r) (model_dump_exclude_unset u) = true ->
      failed (fst (update r id u w)) -> is_not_found (fst (update r id u w)))
  /\ (forall del, delete r = Some del ->
        (is_not_found (fst (del id w)) <-> getitem (records r w) id = None)
        /\ (failed (fst (del id w)) ->
            is_not_found (fst (del id w)) /\ snd (del id w) = w))
  /\ (failed (fst (create r payload w)) ->
      r = Address /\ is_conflict (fst (create r payload w))
      /\ snd (create r payload w) = w)
  /\ (forall street city state postal_code country,
        ~ failed (fst (list_addresses street city state postal_code country w)))
  /\ (forall uni first_name last_name email phone birth_date city country,
        ~ failed (fst (list_persons uni first_name last_name email phone
                                    birth_date city country w)))
  /\ (forall course_code title instructor credits semester,
        ~ failed (fst (list_courses course_code title instructor credits
                                    semester w)))
  /\ (forall title assignment_type course_id due_date assigned_date,
        ~ failed (fst (list_assignments title assignment_type course_id
                                        due_date assigned_date w))).
Proof.
  cbv zeta.
  apply (C4_not_found_and_conflict Course (one_course ticking_clock) 100
           credits_4 databases); by_evaluation.
Defined.

(* ===================================================================== *)
(** * Create *)
(* ===================================================================== *)

(** C5: Create on addresses, for a payload whose identifier is already a
    key of the store, raises the 400 conflict and leaves the state as it
    was; otherwise it answers 201 with the new record, which carries the
    payload's fields and identifier and is stored under that identifier,
    the other rows being untouched. *)
Theorem C5_create_address_conflict_or_stored w address id :
  is_instance AddressCreate address = true ->
  address !! "id" = Some (VUuid id) ->
  (contains (addresses w) id = true ->
     create_address address w =
       (Raise (HTTPException 400 "Address with this ID already exists"), w)
     /\ post_addresses address w = (mkResponse 400 None, w))
  /\ (contains (addresses w) id = false ->
      exists new w',
        create_address address w = (Ok new, w')
        /\ post_addresses address w = (mkResponse 201 (Some new), w')
        /\ new !! "id" = Some (VUuid id)
        /\ (forall n v, address !! n = Some v -> new !! n = Some v)
        /\ addresses w' = setitem (addresses w) id new
        /\ getitem (addresses w') id = Some new
        /\ (forall k, k <> id ->
                      getitem (addresses w') k = getitem (addresses w) k)).
Proof.
  intros Hi Hid. unfold post_addresses, respond.
  rewrite (create_address_run address id w Hi Hid).
  split; intros Hc; rewrite Hc.
  - split; reflexivity.
  - eexists _, _. split; [reflexivity|]. split; [reflexivity|].
    cbn [set_rows addresses advance].
    split; [|split; [|split; [reflexivity|split]]].
    + rewrite lookup_union, Hid. destruct (stamps w !! "id"); reflexivity.
    + intros n v Hn. rewrite lookup_union, Hn.
      destruct (stamps w !! n); reflexivity.
    + apply getitem_setitem_eq.
    + intros k Hk. apply getitem_setitem_ne, Hk.
Qed.

Lemma C5_create_address_conflict_or_stored_witness :
  (contains (addresses one_address) 7 = true ->
     create_address office one_address =
       (Raise (HTTPException 400 "Address with this ID already exists"),
        one_address)
     /\ post_addresses office one_address = (mkResponse 400 None, one_address))
  /\ (contains (addresses one_address) 7 = false ->
      exists new w',
        create_address office one_address = (Ok new, w')
        /\ post_addresses office one_address = (mkResponse 201 (Some new), w')
        /\ new !! "id" = Some (VUuid 7)
        /\ (forall n v, office !! n = Some v -> new !! n = Some v)
        /\ addresses w' = setitem (addresses one_address) 7 new
        /\ getitem (addresses w') 7 = Some new
        /\ (forall k, k <> 7 ->
                      getitem (addresses w') k = getitem (addresses one_address) k)).
Proof.
  apply (C5_create_address_conflict_or_stored one_address office 7);
    by_evaluation.
Defined.

(** The two outcomes on the example addresses: the first create answers
    201 and stores the address, a second payload with the same identifier
    answers 400 and changes nothing. *)
Example create_address_then_conflict :
  post_addresses home (start ticking_clock fresh_uuids)
  = (mkResponse 201 (Some (stored_home 1000 1001)), one_address)
  /\ addresses one_address = [(7, stored_home 1000 1001)]
  /\ post_addresses office one_address = (mkResponse 400 None, one_address).
Proof. repeat split; by_evaluation. Qed.

(** C7, as stated, on the example course with a clock that advances
    between two reads: the record returned by Create has [created_at] 1000
    and [updated_at] 1001. *)
Lemma C7_created_at_differs_from_updated_at :
  create_course cloud_computing (start ticking_clock fresh_uuids)
  = (Ok (stored_course 1000 1001 3),
     mkWorld [] [] [(100, stored_course 1000 1001 3)] []
             ticking_clock 2 fresh_uuids 1)
  /\ stored_course 1000 1001 3 !! "created_at" = Some (VDatetime 1000)
  /\ stored_course 1000 1001 3 !! "updated_at" = Some (VDatetime 1001)
  /\ stored_course 1000 1001 3 !! "created_at"
     <> stored_course 1000 1001 3 !! "updated_at".
Proof.
  assert (H1 : stored_course 1000 1001 3 !! "created_at" = Some (VDatetime 1000))
    by by_evaluation.
  assert (H2 : stored_course 1000 1001 3 !! "updated_at" = Some (VDatetime 1001))
    by by_evaluation.
  repeat split; try assumption; try by_evaluation.
  rewrite H1, H2. discriminate.
Qed.

(** C10: Create on persons, courses and assignments never raises: the
    record gets the next uuid4 value as identifier and is assigned to that
    key of the dictionary whatever the dictionary holds, so a row that
    had the key is replaced in its place and no other row changes. *)
Theorem C10_create_inserts_unconditionally r w payload :
  r <> Address ->
  is_instance (create_model r) payload = true ->
  exists new w',
    create r payload w = (Ok new, w')
    /\ new !! "id" = Some (VUuid (uuids w (uuid_draws w)))
    /\ records r w' = setitem (records r w) (uuids w (uuid_draws w)) new
    /\ getitem (records r w') (uuids w (uuid_draws w)) = Some new
    /\ (forall k, k <> uuids w (uuid_draws w) ->
                  getitem (records r w') k = getitem (records r w) k)
    /\ (contains (records r w) (uuids w (uuid_draws w)) = true ->
        map fst (records r w') = map fst (records r w)).
Proof.
  intros Hr Hpay. eexists _, _.
  split; [apply (create_run r payload w Hr Hpay)|].
  destruct (create_model_no_server_fields r Hr) as (N1 & _).
  unfold records. rewrite rows_set_rows.
  split; [|split; [reflexivity|split; [|split]]].
  - rewrite lookup_union, (is_instance_absent _ _ _ Hpay N1),
      lookup_server_values_id. reflexivity.
  - apply getitem_setitem_eq.
  - intros k Hk. apply getitem_setitem_ne, Hk.
  - apply keys_setitem_present.
Qed.

Lemma C10_create_inserts_unconditionally_witness :
  let w := one_course_stuck in
  exists new w',
    create Course databases w = (Ok new, w')
    /\ new !! "id" = Some (VUuid (uuids w (uuid_draws w)))
    /\ records Course w' = setitem (records Course w) (uuids w (uuid_draws w)) new
    /\ getitem (records Course w') (uuids w (uuid_draws w)) = Some new
    /\ (forall k, k <> uuids w (uuid_draws w) ->
                  getitem (records Course w') k = getitem (records Course w) k)
    /\ (contains (records Course w) (uuids w (uuid_draws w)) = true ->
        map fst (records Course w') = map fst (records Course w)).
Proof.
  cbv zeta.
  apply (C10_create_inserts_unconditionally Course one_course_stuck databases).
  - discriminate.
  - by_evaluation.
Defined.

(** The replacement, evaluated: with a uuid4 that repeats itself the second
    course takes the place of the first, and no conflict is reported. *)
Example create_course_replaces :
  courses one_course_stuck = [(100, stored_course 1000 1001 3)]
  /\ post_courses databases one_course_stuck
     = (mkResponse 201 (Some (stored_databases 100 1002 1003)),
        mkWorld [] [] [(100, stored_databases 100 1002 1003)] []
                ticking_clock 4 stuck_uuids 2).
Proof. repeat split; by_evaluation. Qed.

(* ===================================================================== *)
(** * Every reachable state is well formed *)
(* ===================================================================== *)

Lemma accepts_app s1 s2 (d : fields) :
  accepts (s1 ++ s2)%list d = accepts s1 d && accepts s2 d.
Proof. unfold accepts. apply forallb_app. Qed.

Lemma accepts_union_l s (d e : fields) :
  (forall f, In f s -> is_Some (d !! fname f)) ->
  accepts s (d ∪ e) = accepts s d.
Proof.
  unfold accepts. induction s as [|f s IH]; intros Hall; cbn [forallb];
    [reflexivity|].
  rewrite IH by (intros g Hg; apply Hall; right; exact Hg). f_equal.
  destruct (Hall f (or_introl eq_refl)) as [v Hv].
  unfold typed_in. rewrite lookup_union, Hv.
  destruct (e !! fname f); reflexivity.
Qed.

Lemma names_app s1 s2 : names (s1 ++ s2)%list = (names s1 ++ names s2)%list.
Proof. unfold names. apply map_app. Qed.

(** The record Create builds on persons, courses and assignments is an
    instance of the Read model. *)
Lemma created_is_instance base payload w :
  is_instance base payload = true ->
  "id" ∉ names base -> "created_at" ∉ names base -> "updated_at" ∉ names base ->
  is_instance (base ++ server_fields)%list (payload ∪ server_values w) = true.
Proof.
  intros Hi N1 N2 N3.
  pose proof (is_instance_absent _ _ _ Hi N1) as A1.
  pose proof (is_instance_absent _ _ _ Hi N2) as A2.
  pose proof (is_instance_absent _ _ _ Hi N3) as A3.
  unfold is_instance. apply andb_true_iff. split.
  - apply bool_decide_eq_true.
    rewrite dom_union_L, names_app, list_to_set_app_L, (is_instance_dom _ _ Hi).
    f_equal; unfold server_values, stamps;
      rewrite !dom_insert_L, dom_empty_L; reflexivity.
  - rewrite accepts_app. apply andb_true_iff. split.
    + rewrite accepts_union_l by (intros f Hf; apply (is_instance_present _ _ _ Hi Hf)).
      apply (is_instance_accepts _ _ Hi).
    + unfold accepts, server_fields, typed_in. cbn [forallb fname ftyp].
      rewrite !lookup_union, A1, A2, A3.
      rewrite lookup_server_values_id, lookup_server_values_created,
        lookup_server_values_updated.
      reflexivity.
Qed.

(** The record Create builds on addresses is an instance of the Read
    model. *)
Lemma created_address_is_instance address w :
  is_instance AddressCreate address = true ->
  is_instance AddressRead (address ∪ stamps w) = true.
Proof.
  intros Hi.
  assert (A2 : address !! "created_at" = None).
  { apply (is_instance_absent _ _ _ Hi).
    apply (bool_decide_unpack _); vm_compute; exact I. }
  assert (A3 : address !! "updated_at" = None).
  { apply (is_instance_absent _ _ _ Hi).
    apply (bool_decide_unpack _); vm_compute; exact I. }
  change AddressRead with (AddressCreate ++ timestamps)%list.
  unfold is_instance. apply andb_true_iff. split.
  - apply bool_decide_eq_true.
    rewrite dom_union_L, names_app, list_to_set_app_L, (is_instance_dom _ _ Hi).
    f_equal; unfold stamps; rewrite !dom_insert_L, dom_empty_L; reflexivity.
  - rewrite accepts_app. apply andb_true_iff. split.
    + rewrite accepts_union_l by (intros f Hf; apply (is_instance_present _ _ _ Hi Hf)).
      apply (is_instance_accepts _ _ Hi).
    + unfold accepts, timestamps, typed_in. cbn [forallb fname ftyp].
      rewrite !lookup_union, A2, A3.
      rewrite lookup_stamps_created, lookup_stamps_updated. reflexivity.
Qed.

Lemma create_preserves_wf r w payload :
  wf_world w = true -> is_instance (create_model r) payload = true ->
  wf_world (snd (create r payload w)) = true.
Proof.
  intros Hwf Hpay. destruct (decide (r = Address)) as [->|Hr].
  - destruct (address_payload_id payload Hpay) as [aid Hid].
    cbn [create]. rewrite (create_address_run payload aid w Hpay Hid).
    destruct (contains (addresses w) aid); [exact Hwf|]. cbn [snd].
    apply (wf_world_set_rows Address); [exact Hwf|].
    apply wf_rows_setitem; [apply (wf_world_rows Address), Hwf|].
    apply created_address_is_instance, Hpay.
  - rewrite (create_run r payload w Hr Hpay). cbn [snd].
    apply wf_world_set_rows; [exact Hwf|].
    apply wf_rows_setitem; [apply wf_world_rows, Hwf|].
    rewrite (read_model_server_fields r Hr).
    destruct (create_model_no_server_fields r Hr) as (N1 & N2 & N3).
    apply created_is_instance; assumption.
Qed.

Lemma step_preserves_wf w w' : step w w' -> wf_world w = true -> wf_world w' = true.
Proof.
  intros Hstep Hwf. destruct Hstep.
  - apply create_preserves_wf; assumption.
  - rewrite get_preserves_state. exact Hwf.
  - apply update_preserves_wf; assumption.
  - apply (delete_preserves_wf r del); assumption.
  - exact Hwf.
Qed.

(** The hypothesis under which the handlers are studied holds in every
    state the process reaches from its empty dictionaries. *)
Lemma reachable_wf w : reachable w -> wf_world w = true.
Proof.
  induction 1 as [clk ids|w w' _ IH Hstep].
  - apply wf_start.
  - apply (step_preserves_wf w w' Hstep IH).
Qed.

(* ===================================================================== *)
(** * List on examples *)
(* ===================================================================== *)

(** String filters are exact: another case, or a part of the title, matches
    nothing, and a filter that matches nothing is not an error. *)
Example list_courses_title_is_exact :
  fst (list_courses None (Some "Cloud Computing") None None None
                    (one_course ticking_clock))
  = Ok [stored_course 1000 1001 3]
  /\ fst (list_courses None (Some "cloud computing") None None None
                       (one_course ticking_clock))
     = Ok []
  /\ fst (list_courses None (Some "Cloud") None None None
                       (one_course ticking_clock))
     = Ok [].
Proof. repeat split; by_evaluation. Qed.

(** Filters are a conjunction: the right title with the wrong number of
    credits matches nothing. *)
Example list_courses_is_a_conjunction :
  fst (list_courses None (Some "Cloud Computing") None (Some 3) None
                    (one_course ticking_clock))
  = Ok [stored_course 1000 1001 3]
  /\ fst (list_courses None (Some "Cloud Computing") None (Some 4) None
                       (one_course ticking_clock))
     = Ok [].
Proof. repeat split; by_evaluation. Qed.

(** The rendering a date filter is compared with. *)
Example str_date_renders_iso :
  str_date (Some (mkdate 2025 9 1)) = "2025-09-01"
  /\ str_date (Some (mkdate 987 12 31)) = "0987-12-31".
Proof. repeat split; by_evaluation. Qed.

(** Insertion order: two courses are listed in the order of their
    creation, and an update of the first keeps it first. *)
Example list_courses_in_insertion_order :
  let w := snd (create_course databases (one_course ticking_clock)) in
  fst (list_courses None None None None None w)
  = Ok [stored_course 1000 1001 3; stored_databases 101 1002 1003]
  /\ fst (list_courses None None None None None
                       (snd (update_course 100 credits_4 w)))
     = Ok [stored_course 1000 1001 4; stored_databases 101 1002 1003]
  /\ fst (list_courses None None None (Some 3) (Some "Spring 2025") w)
     = Ok [stored_databases 101 1002 1003].
Proof. cbv zeta. repeat split; by_evaluation. Qed.

(* ===================================================================== *)
(** * What every reachable state satisfies *)
(* ===================================================================== *)

Section RowFacts.
Context {V : Type}.
Implicit Types (d : pydict V) (k : UUID) (v : V).

Lemma In_setitem d k v k' v' :
  In (k', v') (setitem d k v) -> (k' = k /\ v' = v) \/ In (k', v') d.
Proof.
  induction d as [|[k0 v0] d IH]; cbn [setitem].
  - intros [[= <- <-]|[]]. auto.
  - destruct (decide (k = k0)) as [->|Hne].
    + intros [[= <- <-]|Hin]; [left; auto|right; right; exact Hin].
    + intros [Heq|Hin]; [right; left; exact Heq|].
      destruct (IH Hin) as [?|?]; [left; assumption|right; right; assumption].
Qed.

Lemma In_delitem d k k' v' : In (k', v') (delitem d k) -> In (k', v') d.
Proof.
  induction d as [|[k0 v0] d IH]; cbn [delitem]; [tauto|].
  destruct (decide (k = k0)).
  - intros Hin. right. exact Hin.
  - intros [Heq|Hin]; [left; exact Heq|right; apply IH, Hin].
Qed.

Lemma getitem_Some_key d k v : getitem d k = Some v -> In k (map fst d).
Proof. intros H. apply (in_map fst _ _ (getitem_In d k v H)). Qed.

Lemma getitem_is_None d k : getitem d k = None <-> ~ In k (map fst d).
Proof.
  split; [|apply getitem_None].
  induction d as [|[k0 v0] d IH]; cbn [getitem map fst]; [tauto|].
  destruct (decide (k = k0)); [discriminate|].
  intros H [Heq|Hin]; [congruence|exact (IH H Hin)].
Qed.

(** A key that is absent is appended. *)
Lemma keys_setitem_absent d k v :
  getitem d k = None -> map fst (setitem d k v) = (map fst d ++ [k])%list.
Proof.
  induction d as [|[k0 v0] d IH]; cbn [getitem setitem map fst app];
    [reflexivity|].
  destruct (decide (k = k0)); [discriminate|].
  intros H. cbn [map fst]. rewrite IH by exact H. reflexivity.
Qed.

Lemma keys_setitem d k v :
  map fst (setitem d k v)
  = if contains d k then map fst d else (map fst d ++ [k])%list.
Proof.
  destruct (contains d k) eqn:Hc.
  - apply keys_setitem_present, Hc.
  - apply keys_setitem_absent, contains_false, Hc.
Qed.

Lemma NoDup_keys_setitem d k v :
  List.NoDup (map fst d) -> List.NoDup (map fst (setitem d k v)).
Proof.
  intros Hnd. rewrite keys_setitem. destruct (contains d k) eqn:Hc; [exact Hnd|].
  apply contains_false, getitem_is_None in Hc.
  induction (map fst d) as [|k0 l IH]; cbn [app].
  - constructor; [intros []|constructor].
  - inversion Hnd as [|? ? Hnotin Hnd']; subst. constructor.
    + rewrite in_app_iff. cbn [In]. intros [Hin|[->|[]]]; [tauto|].
      apply Hc. left. reflexivity.
    + apply IH; [exact Hnd'|]. intros Hin. apply Hc. right. exact Hin.
Qed.

Lemma keys_delitem_In d k k' : In k' (map fst (delitem d k)) -> In k' (map fst d).
Proof.
  induction d as [|[k0 v0] d IH]; cbn [delitem map fst]; [tauto|].
  destruct (decide (k = k0)); cbn [map fst In]; tauto.
Qed.

Lemma NoDup_keys_delitem d k :
  List.NoDup (map fst d) -> List.NoDup (map fst (delitem d k)).
Proof.
  induction d as [|[k0 v0] d IH]; cbn [delitem map fst]; [auto|].
  intros Hnd. inversion Hnd as [|? ? Hnotin Hnd']; subst.
  destruct (decide (k = k0)); [exact Hnd'|].
  cbn [map fst]. constructor; [|apply IH, Hnd'].
  intros Hin. apply Hnotin, (keys_delitem_In _ _ _ Hin).
Qed.

(** Under distinct keys a row is what its key looks up. *)
Lemma In_getitem d k v :
  List.NoDup (map fst d) -> In (k, v) d -> getitem d k = Some v.
Proof.
  induction d as [|[k0 v0] d IH]; cbn [getitem map fst]; [intros _ []|].
  intros Hnd [Heq|Hin]; inversion Hnd as [|? ? Hnotin Hnd']; subst.
  - injection Heq as -> ->. rewrite decide_True; reflexivity.
  - destruct (decide (k = k0)) as [->|Hne]; [|apply IH; assumption].
    destruct Hnotin. apply (in_map fst _ _ Hin).
Qed.

(** The values after a deletion: those of the rows with another key. *)
Lemma dict_values_delitem d k :
  List.NoDup (map fst d) ->
  dict_values (delitem d k)
  = dict_values (List.filter (fun kv => negb (bool_decide (kv.1 = k))) d).
Proof.
  unfold dict_values.
  induction d as [|[k0 v0] d IH]; cbn [delitem List.filter map fst snd];
    [reflexivity|].
  intros Hnd. inversion Hnd as [|? ? Hnotin Hnd']; subst.
  destruct (decide (k = k0)) as [->|Hne].
  - rewrite bool_decide_eq_true_2 by reflexivity. cbn [negb]. f_equal.
    clear IH Hnd Hnd'. induction d as [|[k1 v1] d IH]; cbn [List.filter fst];
      [reflexivity|].
    cbn [map fst In] in Hnotin.
    rewrite bool_decide_eq_false_2 by (intros ->; apply Hnotin; left; reflexivity).
    cbn [negb]. f_equal. apply IH. tauto.
  - rewrite bool_decide_eq_false_2 by congruence. cbn [negb map snd].
    rewrite IH by exact Hnd'. reflexivity.
Qed.
End RowFacts.

Lemma table_of_inj r r' : table_of r = table_of r' -> r = r'.
Proof. destruct r, r'; intros H; try reflexivity; discriminate. Qed.

Lemma records_set_rows r r' d w :
  records r' (set_rows (table_of r) d w)
  = if decide (r' = r) then d else records r' w.
Proof.
  unfold records. destruct (decide (r' = r)) as [->|Hne].
  - apply rows_set_rows.
  - apply rows_set_rows_ne. intros H. apply Hne. symmetry. apply table_of_inj, H.
Qed.

Lemma clock_set_rows t d w : clock (set_rows t d w) = clock w.
Proof. destruct t; reflexivity. Qed.

Lemma all_rows_setitem P (d : pydict fields) k o :
  all_rows P d -> P k o -> all_rows P (setitem d k o).
Proof.
  intros Hd Ho k' o' Hin. destruct (In_setitem _ _ _ _ _ Hin) as [[-> ->]|Hin'].
  - exact Ho.
  - apply Hd, Hin'.
Qed.

Lemma all_rows_delitem P (d : pydict fields) k :
  all_rows P d -> all_rows P (delitem d k).
Proof. intros Hd k' o' Hin. apply Hd, (In_delitem _ _ _ _ Hin). Qed.

(** Replacing the rows of one resource by rows that satisfy the
    invariant, in a state with the same clock. *)
Lemma invariant_set_rows r d w c u :
  invariant w ->
  wf_rows (read_model r) d = true ->
  List.NoDup (map fst d) ->
  all_rows (fun k o => keyed k o /\ stamped_by (clock w) o) d ->
  invariant (set_rows (table_of r) d (advance c u w)).
Proof.
  intros (Hwf & Hrows) Hd Hnd Hall. split.
  - apply wf_world_set_rows; [rewrite wf_world_advance; exact Hwf|exact Hd].
  - intros r'. rewrite records_set_rows, clock_set_rows.
    change (clock (advance c u w)) with (clock w).
    destruct (decide (r' = r)) as [->|Hne]; [split; assumption|].
    unfold records. rewrite rows_advance. apply Hrows.
Qed.

Lemma advance_0 w : advance 0 0 w = w.
Proof. destruct w; reflexivity. Qed.

Lemma start_invariant clk ids : invariant (start clk ids).
Proof.
  split; [reflexivity|]. intros r. split.
  - destruct r; constructor.
  - intros k o Hin. destruct r; destruct Hin.
Qed.

Lemma create_preserves_invariant r w payload :
  invariant w -> is_instance (create_model r) payload = true ->
  invariant (snd (create r payload w)).
Proof.
  intros Hinv Hpay. pose proof Hinv as (Hwf & Hrows).
  destruct (Hrows r) as (Hnd & Hall).
  pose proof (create_preserves_wf r w payload Hwf Hpay) as Hwf'.
  destruct (decide (r = Address)) as [->|Hr].
  - destruct (address_payload_id payload Hpay) as [aid Hid].
    cbn [create] in *. rewrite (create_address_run payload aid w Hpay Hid) in *.
    destruct (contains (addresses w) aid); [exact Hinv|]. cbn [snd] in *.
    assert (A2 : payload !! "created_at" = None).
    { apply (is_instance_absent _ _ _ Hpay).
      apply (bool_decide_unpack _); vm_compute; exact I. }
    assert (A3 : payload !! "updated_at" = None).
    { apply (is_instance_absent _ _ _ Hpay).
      apply (bool_decide_unpack _); vm_compute; exact I. }
    apply (invariant_set_rows Address); [exact Hinv| | |].
    + apply wf_rows_setitem; [apply (wf_world_rows Address), Hwf|].
      apply created_address_is_instance, Hpay.
    + apply NoDup_keys_setitem, Hnd.
    + apply all_rows_setitem; [exact Hall|]. split.
      * unfold keyed. rewrite lookup_union, Hid.
        destruct (stamps w !! "id"); reflexivity.
      * exists (clock_reads w).
        rewrite !lookup_union, A2, A3, lookup_stamps_created,
          lookup_stamps_updated. split; reflexivity.
  - rewrite (create_run r payload w Hr Hpay) in *. cbn [snd] in *.
    destruct (create_model_no_server_fields r Hr) as (N1 & N2 & N3).
    apply invariant_set_rows; [exact Hinv| | |].
    + apply wf_rows_setitem; [apply wf_world_rows, Hwf|].
      rewrite (read_model_server_fields r Hr).
      apply created_is_instance; assumption.
    + apply NoDup_keys_setitem, Hnd.
    + apply all_rows_setitem; [exact Hall|]. split.
      * unfold keyed.
        rewrite lookup_union, (is_instance_absent _ _ _ Hpay N1),
          lookup_server_values_id. reflexivity.
      * exists (clock_reads w).
        rewrite !lookup_union, (is_instance_absent _ _ _ Hpay N2),
          (is_instance_absent _ _ _ Hpay N3), lookup_server_values_created,
          lookup_server_values_updated. split; reflexivity.
Qed.

Lemma update_preserves_invariant r w id u :
  invariant w -> is_update (update_model r) u = true ->
  invariant (snd (update r id u w)).
Proof.
  intros Hinv Hu. pose proof Hinv as (Hwf & Hrows).
  destruct (Hrows r) as (Hnd & Hall).
  rewrite (update_run r w id u Hwf Hu).
  destruct (getitem (records r w) id) as [old|] eqn:Hget; [|exact Hinv].
  destruct (accepts (read_model r) (model_dump_exclude_unset u)) eqn:Hacc;
    [|exact Hinv].
  cbn [snd]. rewrite <- (advance_0 w) at 2.
  destruct (update_model_has_no_server_fields r) as (N1 & N2 & N3).
  destruct (Hall id old (getitem_In _ _ _ Hget)) as (Hkey & n & Hc & Hup).
  apply invariant_set_rows; [exact Hinv| | |].
  - apply wf_rows_setitem; [apply wf_world_rows, Hwf|].
    rewrite merged_is_instance; [exact Hacc| |apply update_dom, Hu].
    apply (wf_world_getitem r w id old Hwf Hget).
  - apply NoDup_keys_setitem, Hnd.
  - apply all_rows_setitem; [exact Hall|]. split.
    + unfold keyed. rewrite lookup_union, (exclude_unset_undeclared _ _ _ Hu N1).
      rewrite (left_id_L None union). exact Hkey.
    + exists n. rewrite !lookup_union,
        (exclude_unset_undeclared _ _ _ Hu N2),
        (exclude_unset_undeclared _ _ _ Hu N3), !(left_id_L None union).
      split; assumption.
Qed.

Lemma delete_preserves_invariant r del w id :
  delete r = Some del -> invariant w -> invariant (snd (del id w)).
Proof.
  intros Hdel Hinv. pose proof Hinv as (Hwf & Hrows).
  destruct (Hrows r) as (Hnd & Hall).
  rewrite (delete_unfold r del Hdel), delete_in_run.
  destruct (getitem (rows (table_of r) w) id); [|exact Hinv].
  cbn [snd]. rewrite <- (advance_0 w) at 2.
  apply invariant_set_rows; [exact Hinv| | |].
  - apply wf_rows_delitem, wf_world_rows, Hwf.
  - apply NoDup_keys_delitem, Hnd.
  - apply all_rows_delitem, Hall.
Qed.

Lemma reachable_invariant w : reachable w -> invariant w.
Proof.
  induction 1 as [clk ids|w w' _ IH Hstep].
  - apply start_invariant.
  - destruct Hstep.
    + apply create_preserves_invariant; assumption.
    + rewrite get_preserves_state. exact IH.
    + apply update_preserves_invariant; assumption.
    + apply (delete_preserves_invariant r del); assumption.
    + exact IH.
Qed.

(** The example states are reachable. *)
Lemma one_course_reachable clk : reachable (one_course clk).
Proof.
  apply (reachable_step (start clk fresh_uuids)); [apply reachable_start|].
  apply (step_create Course cloud_computing). by_evaluation.
Qed.

Lemma two_courses_reachable : reachable two_courses.
Proof.
  apply (reachable_step (one_course ticking_clock));
    [apply one_course_reachable|].
  apply (step_create Course databases). by_evaluation.
Qed.

Lemma one_person_reachable : reachable one_person.
Proof.
  apply (reachable_step (start ticking_clock fresh_uuids));
    [apply reachable_start|].
  apply (step_create Person traveller). by_evaluation.
Qed.

(* ===================================================================== *)
(** * The handlers on arbitrary arguments *)
(* ===================================================================== *)

Lemma advance_advance c u c' u' w :
  advance c u (advance c' u' w) = advance (c + c') (u + u') w.
Proof.
  unfold advance. cbn [persons addresses courses assignments clock clock_reads
                       uuids uuid_draws].
  rewrite !Nat.add_assoc. reflexivity.
Qed.

Lemma call_advances f w :
  exists v c u, call f w = (Ok v, advance c u w).
Proof.
  destruct f.
  - exists (VUuid (uuids w (uuid_draws w))), 0%nat, 1%nat. reflexivity.
  - exists (VDatetime (clock w (clock_reads w))), 1%nat, 0%nat. reflexivity.
  - exists (VAddrs []), 0%nat, 0%nat. rewrite advance_0. reflexivity.
Qed.

Lemma validate_field_advances f kw w :
  exists ov c u, validate_field f kw w = (Ok ov, advance c u w).
Proof.
  unfold validate_field. destruct (kw !! fname f) as [v|].
  - eexists _, 0%nat, 0%nat. rewrite advance_0. reflexivity.
  - destruct (fdef f) as [|v|g]; cbn [default_value].
    + eexists _, 0%nat, 0%nat. rewrite advance_0. reflexivity.
    + eexists _, 0%nat, 0%nat. rewrite advance_0. reflexivity.
    + destruct (call_advances g w) as (v & c & u & Hcall).
      exists (Some v), c, u. unfold bind. rewrite Hcall. reflexivity.
Qed.

(** Whatever the keyword arguments, building a model only draws on the
    clock and on uuid4: the four dictionaries are as they were. *)
Lemma validate_advances s kw w :
  exists om c u, validate s kw w = (Ok om, advance c u w).
Proof.
  revert w. induction s as [|f s IH]; intros w; cbn [validate].
  - eexists _, 0%nat, 0%nat. rewrite advance_0. reflexivity.
  - destruct (validate_field_advances f kw w) as (ov & c1 & u1 & H1).
    destruct (IH (advance c1 u1 w)) as (om & c2 & u2 & H2).
    eexists _, (c2 + c1)%nat, (u2 + u1)%nat.
    unfold bind at 1. rewrite H1. unfold bind at 1. rewrite H2.
    rewrite advance_advance. reflexivity.
Qed.

(** Update, case by case, on any state and any payload. *)
Lemma update_in_cases t read detail id u w :
  update_in t read detail id u w =
    match getitem (rows t w) id with
    | None => (Raise (HTTPException 404 detail), w)
    | Some old =>
        match validate read (model_dump_exclude_unset u ∪ old) w with
        | (Ok (Some m), w1) =>
            (Ok m, set_rows t (setitem (rows t w1) id m) w1)
        | (Ok None, w1) => (Raise ValidationError, w1)
        | (Raise e, w1) => (Raise e, w1)
        end
    end.
Proof.
  destruct (getitem (rows t w) id) as [old|] eqn:Hget;
    [|apply update_in_absent, Hget].
  unfold update_in, global, contains, load, model_dump, dict_update.
  unfold bind at 1. rewrite Hget. cbn [negb].
  unfold bind at 1. rewrite Hget.
  destruct (validate_advances read (model_dump_exclude_unset u ∪ old) w)
    as (om & c & n & Hval).
  unfold bind at 1. rewrite (construct_run _ _ _ _ _ Hval), Hval.
  destruct om as [m|]; [|reflexivity].
  unfold bind, store. rewrite rows_set_rows, getitem_setitem_eq. reflexivity.
Qed.

(** A successful update stores what it returns under the key it was given,
    in the place the key had. *)
Lemma update_success r w id u new w' :
  update r id u w = (Ok new, w') ->
  exists c n,
    contains (records r w) id = true
    /\ w' = set_rows (table_of r) (setitem (records r w) id new) (advance c n w).
Proof.
  rewrite update_unfold, update_in_cases. unfold records, contains.
  destruct (getitem (rows (table_of r) w) id) as [old|]; [|discriminate].
  destruct (validate_advances (read_model r) (model_dump_exclude_unset u ∪ old) w)
    as (om & c & n & Hval).
  rewrite Hval. destruct om as [m|]; [|discriminate].
  intros [= <- <-]. exists c, n. rewrite rows_advance. auto.
Qed.

(** An update that fails changes no dictionary. *)
Lemma update_failure r w id u e w' :
  update r id u w = (Raise e, w') -> exists c n, w' = advance c n w.
Proof.
  rewrite update_unfold, update_in_cases.
  destruct (getitem (rows (table_of r) w) id) as [old|].
  - destruct (validate_advances (read_model r)
                (model_dump_exclude_unset u ∪ old) w) as (om & c & n & Hval).
    rewrite Hval. destruct om as [m|]; [discriminate|].
    intros [= <- <-]. eauto.
  - intros [= <- <-]. exists 0%nat, 0%nat. rewrite advance_0. reflexivity.
Qed.

(** Create on persons, courses and assignments, on any payload: either
    the record is stored under its identifier, or no dictionary changes. *)
Lemma create_in_cases t read payload w :
  exists c n,
    (exists o id,
        create_in t read payload w
        = (Ok o, set_rows t (setitem (rows t w) id o) (advance c n w))
        /\ o !! "id" = Some (VUuid id))
    \/ (exists e, create_in t read payload w = (Raise e, advance c n w)).
Proof.
  destruct (validate_advances read payload w) as (om & c & n & Hval).
  exists c, n.
  assert (Hrun : create_in t read payload w =
                 match om with
                 | Some o =>
                     match o !! "id" with
                     | Some (VUuid id) =>
                         (Ok o, set_rows t (setitem (rows t w) id o)
                                         (advance c n w))
                     | _ => (Raise AttributeError, advance c n w)
                     end
                 | None => (Raise ValidationError, advance c n w)
                 end).
  { unfold create_in, model_dump. unfold bind at 1.
    rewrite (construct_run _ _ _ _ _ Hval).
    destruct om as [o|]; [|reflexivity].
    unfold bind at 1. unfold attr_id.
    destruct (o !! "id") as [[| | |id| | |]|]; try reflexivity.
    all: unfold ret, bind, store; rewrite rows_advance; reflexivity. }
  rewrite Hrun. destruct om as [o|]; [|right; eexists; reflexivity].
  destruct (o !! "id") as [[| | |id| | |]|] eqn:Hid; try (right; eexists; reflexivity).
  left. exists o, id. auto.
Qed.

Lemma create_address_cases address w :
  exists c n,
    (exists o id,
        create_address address w
        = (Ok o, set_rows Addresses (setitem (addresses w) id o) (advance c n w))
        /\ address !! "id" = Some (VUuid id)
        /\ contains (addresses w) id = false)
    \/ (exists e, create_address address w = (Raise e, advance c n w)).
Proof.
  destruct (validate_advances AddressRead address w) as (om & c & n & Hval).
  assert (Hrun : create_address address w =
                 match address !! "id" with
                 | Some (VUuid id) =>
                     if contains (addresses w) id then
                       (Raise (HTTPException 400
                                 "Address with this ID already exists"), w)
                     else
                       match om with
                       | Some o =>
                           (Ok o, set_rows Addresses
                                    (setitem (addresses w) id o) (advance c n w))
                       | None => (Raise ValidationError, advance c n w)
                       end
                 | _ => (Raise AttributeError, w)
                 end).
  { unfold create_address, attr_id, model_dump.
    destruct (address !! "id") as [[| | |id| | |]|]; try reflexivity.
    unfold bind at 1. unfold ret at 1. unfold bind at 1. unfold global at 1.
    change (rows Addresses w) with (addresses w).
    destruct (contains (addresses w) id); [reflexivity|].
    unfold bind at 1. rewrite (construct_run _ _ _ _ _ Hval).
    destruct om as [o|]; [|reflexivity].
    unfold bind, ret, store, load.
    rewrite rows_set_rows, getitem_setitem_eq, rows_advance. reflexivity. }
  rewrite Hrun.
  destruct (address !! "id") as [[| | |id| | |]|] eqn:Hid;
    try (exists 0%nat, 0%nat; right; rewrite advance_0; eexists; reflexivity).
  destruct (contains (addresses w) id) eqn:Hc.
  { exists 0%nat, 0%nat. right. rewrite advance_0. eexists. reflexivity. }
  exists c, n. destruct om as [o|]; [|right; eexists; reflexivity].
  left. exists o, id. auto.
Qed.

(** A value the keyword arguments supply for a field is the value the
    instance holds, when the instance is built. *)
Lemma validate_keeps s kw w o w' f v :
  validate s kw w = (Ok (Some o), w') ->
  In f s -> kw !! fname f = Some v -> o !! fname f = Some v.
Proof.
  revert w o w'. induction s as [|g s IH]; intros w o w' Hval Hf Hv; [destruct Hf|].
  cbn [validate] in Hval.
  destruct (validate_field_advances g kw w) as (ov & c1 & u1 & H1).
  destruct (validate_advances s kw (advance c1 u1 w)) as (om & c2 & u2 & H2).
  unfold bind at 1 in Hval. rewrite H1 in Hval.
  unfold bind at 1 in Hval. rewrite H2 in Hval. unfold ret in Hval.
  destruct ov as [x|]; [|discriminate]. destruct om as [m|]; [|discriminate].
  injection Hval as <- <-.
  destruct (decide (fname g = fname f)) as [Heq|Hne].
  - rewrite <- Heq, lookup_insert_eq. unfold validate_field in H1.
    rewrite Heq, Hv in H1. unfold ret in H1.
    destruct (has_type v (ftyp g)); congruence.
  - rewrite lookup_insert_ne by exact Hne.
    destruct Hf as [->|Hf]; [congruence|]. apply (IH _ _ _ H2 Hf Hv).
Qed.

(** Create, on any resource and any payload: either the record is stored
    under the identifier it carries, or no dictionary changes. *)
Lemma create_stores_or_fails r payload w :
  exists c n,
    (exists o id,
        create r payload w
        = (Ok o, set_rows (table_of r) (setitem (records r w) id o)
                          (advance c n w))
        /\ o !! "id" = Some (VUuid id))
    \/ (exists e, create r payload w = (Raise e, advance c n w)).
Proof.
  destruct (decide (r = Address)) as [->|Hr].
  - destruct (validate_advances AddressRead payload w) as (om & c0 & n0 & Hval).
    destruct (create_address_cases payload w)
      as (c & n & [(o & id & Hrun & Hid & Hc)|He]); exists c, n;
      [left|right; exact He].
    exists o, id. split; [exact Hrun|].
    assert (Hval' : exists w1, validate AddressRead payload w = (Ok (Some o), w1)).
    { revert Hrun. unfold create_address, attr_id, model_dump. rewrite Hid.
      unfold bind at 1. unfold ret at 1. unfold bind at 1. unfold global at 1.
      change (rows Addresses w) with (addresses w). rewrite Hc.
      unfold bind at 1. rewrite (construct_run _ _ _ _ _ Hval).
      destruct om as [m|]; [|discriminate].
      unfold bind, ret, store, load.
      rewrite rows_set_rows, getitem_setitem_eq. intros [= <- _]. eauto. }
    destruct Hval' as [w1 Hval'].
    apply (validate_keeps _ _ _ _ _ (Field "id" TUuid (DefaultFactory uuid4))
             _ Hval'); [left; reflexivity|exact Hid].
  - rewrite (create_unfold r Hr). apply create_in_cases.
Qed.

Lemma records_after_store r d c n w :
  records r (set_rows (table_of r) d (advance c n w)) = d.
Proof. unfold records. apply rows_set_rows. Qed.

Lemma records_advance r c n w : records r (advance c n w) = records r w.
Proof. unfold records. apply rows_advance. Qed.

Lemma get_run r id w :
  get r id w =
    match getitem (records r w) id with
    | Some o => (Ok o, w)
    | None => (Raise (HTTPException 404 (not_found r)), w)
    end.
Proof. rewrite get_unfold. apply get_in_run. Qed.

Lemma list_all_run r w : list_all r w = (Ok (dict_values (records r w)), w).
Proof.
  destruct r; cbn [list_all]; unfold records; cbn [table_of rows].
  - rewrite list_persons_run. cbn [person_matches supplied andb].
    rewrite filter_all. reflexivity.
  - rewrite list_addresses_run. cbn [address_matches supplied andb].
    rewrite filter_all. reflexivity.
  - rewrite list_courses_run. cbn [course_matches supplied andb].
    rewrite filter_all. reflexivity.
  - rewrite list_assignments_run. cbn [assignment_matches supplied andb].
    rewrite filter_all. reflexivity.
Qed.

(* ===================================================================== *)
(** * Reading back what was written *)
(* ===================================================================== *)

(** X1: Get with the identifier of the record a Create returned gives
    back that record, and changes nothing. *)
Theorem get_after_create r w payload new w' :
  create r payload w = (Ok new, w') ->
  exists id, new !! "id" = Some (VUuid id) /\ get r id w' = (Ok new, w').
Proof.
  intros Hrun.
  destruct (create_stores_or_fails r payload w)
    as (c & n & [(o & id & Ho & Hid)|[e He]]); [|congruence].
  rewrite Ho in Hrun. injection Hrun as <- <-. exists id. split; [exact Hid|].
  rewrite get_run, records_after_store, getitem_setitem_eq. reflexivity.
Qed.

Lemma get_after_create_witness :
  exists id,
    stored_course 1000 1001 3 !! "id" = Some (VUuid id)
    /\ get Course id (one_course ticking_clock)
       = (Ok (stored_course 1000 1001 3), one_course ticking_clock).
Proof.
  apply (get_after_create Course (start ticking_clock fresh_uuids)
           cloud_computing (stored_course 1000 1001 3)
           (one_course ticking_clock)).
  by_evaluation.
Defined.

(** X2: Get after a successful Update gives back the record the Update
    returned. *)
Theorem get_after_update r w id u new w' :
  update r id u w = (Ok new, w') -> get r id w' = (Ok new, w').
Proof.
  intros Hrun. destruct (update_success r w id u new w' Hrun) as (c & n & _ & ->).
  rewrite get_run, records_after_store, getitem_setitem_eq. reflexivity.
Qed.

Lemma get_after_update_witness :
  get Course 100 (snd (update Course 100 credits_4 (one_course ticking_clock)))
  = (Ok (stored_course 1000 1001 4),
     snd (update Course 100 credits_4 (one_course ticking_clock))).
Proof.
  apply (get_after_update Course (one_course ticking_clock) 100 credits_4).
  by_evaluation.
Defined.

(** X3: an Update, successful or not, neither adds nor removes nor
    reorders rows: the dictionary has the same keys in the same order, so
    the records keep their places in what List returns. *)
Theorem update_keeps_the_keys r w id u :
  map fst (records r (snd (update r id u w))) = map fst (records r w).
Proof.
  destruct (update r id u w) as [[new|e] w'] eqn:Hrun; cbn [snd].
  - destruct (update_success r w id u new w' Hrun) as (c & n & Hc & ->).
    rewrite records_after_store. apply keys_setitem_present, Hc.
  - destruct (update_failure r w id u e w' Hrun) as (c & n & ->).
    rewrite records_advance. reflexivity.
Qed.

(** X4: a request on one resource leaves the rows of every other
    resource as they are: nothing cascades, neither on Create, Get and
    Update nor on Delete. *)
Theorem other_resources_are_untouched r r' w :
  r' <> r ->
  (forall payload, records r' (snd (create r payload w)) = records r' w)
  /\ (forall id, records r' (snd (get r id w)) = records r' w)
  /\ (forall id u, records r' (snd (update r id u w)) = records r' w)
  /\ (forall del id, delete r = Some del ->
                     records r' (snd (del id w)) = records r' w).
Proof.
  intros Hne.
  assert (Hset : forall d c n,
             records r' (set_rows (table_of r) d (advance c n w)) = records r' w).
  { intros d c n. rewrite records_set_rows, decide_False by exact Hne.
    apply records_advance. }
  split; [|split; [|split]].
  - intros payload.
    destruct (create_stores_or_fails r payload w)
      as (c & n & [(o & id & -> & _)|[e ->]]); cbn [snd].
    + apply Hset.
    + apply records_advance.
  - intros id. rewrite get_preserves_state. reflexivity.
  - intros id u. destruct (update r id u w) as [[new|e] w'] eqn:Hrun; cbn [snd].
    + destruct (update_success r w id u new w' Hrun) as (c & n & _ & ->).
      apply Hset.
    + destruct (update_failure r w id u e w' Hrun) as (c & n & ->).
      apply records_advance.
  - intros del id Hdel. rewrite (delete_unfold r del Hdel), delete_in_run.
    destruct (getitem (rows (table_of r) w) id); cbn [snd]; [|reflexivity].
    rewrite <- (Hset (delitem (rows (table_of r) w) id) 0%nat 0%nat).
    rewrite advance_0. reflexivity.
Qed.

Lemma other_resources_are_untouched_witness :
  (forall payload,
      records Assignment (snd (create Course payload two_courses))
      = records Assignment two_courses)
  /\ (forall id, records Assignment (snd (get Course id two_courses))
                 = records Assignment two_courses)
  /\ (forall id u, records Assignment (snd (update Course id u two_courses))
                   = records Assignment two_courses)
  /\ (forall del id, delete Course = Some del ->
                     records Assignment (snd (del id two_courses))
                     = records Assignment two_courses).
Proof.
  apply (other_resources_are_untouched Course Assignment two_courses).
  discriminate.
Defined.

(* ===================================================================== *)
(** * What Get and List show of a reachable state *)
(* ===================================================================== *)

Lemma reachable_rows r w k o :
  reachable w -> getitem (records r w) k = Some o ->
  keyed k o /\ stamped_by (clock w) o.
Proof.
  intros Hre Hget. destruct (reachable_invariant w Hre) as (_ & Hrows).
  destruct (Hrows r) as (_ & Hall). apply (Hall k o), getitem_In, Hget.
Qed.

Lemma get_Ok r k w o : fst (get r k w) = Ok o -> getitem (records r w) k = Some o.
Proof.
  rewrite get_run. destruct (getitem (records r w) k); cbn [fst]; congruence.
Qed.

(** X5: in every state the process reaches, the record Get returns for
    an identifier carries that identifier: records are stored under their
    own [id], whatever was created, updated and deleted before. *)
Theorem get_returns_the_record_of_that_id r w k o :
  reachable w -> fst (get r k w) = Ok o -> o !! "id" = Some (VUuid k).
Proof.
  intros Hre Hget. apply (reachable_rows r w k o Hre), get_Ok, Hget.
Qed.

Lemma get_returns_the_record_of_that_id_witness :
  stored_databases 101 1002 1003 !! "id" = Some (VUuid 101).
Proof.
  apply (get_returns_the_record_of_that_id Course two_courses 101
           (stored_databases 101 1002 1003)).
  - apply two_courses_reachable.
  - by_evaluation.
Defined.

Lemma ticking_clock_advances n : ticking_clock n <= ticking_clock (S n).
Proof. unfold ticking_clock. lia. Qed.

Lemma keyed_ids (d : pydict fields) :
  all_rows keyed d ->
  map (fun o : fields => o !! "id") (dict_values d)
  = map (fun k => Some (VUuid k)) (map fst d).
Proof.
  unfold dict_values. induction d as [|[k o] d IH]; intros Hall;
    cbn [map fst snd]; [reflexivity|].
  rewrite (Hall k o (or_introl eq_refl)), IH; [reflexivity|].
  intros k' o' Hin. apply Hall. right. exact Hin.
Qed.

(** X7: in every state the process reaches, List with no filter returns
    no two records with the same identifier. *)
Theorem listed_ids_are_distinct r w l :
  reachable w -> fst (list_all r w) = Ok l ->
  List.NoDup (map (fun o : fields => o !! "id") l).
Proof.
  intros Hre. rewrite list_all_run. cbn [fst]. intros [= <-].
  destruct (reachable_invariant w Hre) as (_ & Hrows).
  destruct (Hrows r) as (Hnd & Hall).
  rewrite keyed_ids by (intros k o Hin; apply (Hall k o Hin)).
  induction Hnd as [|k l Hnotin _ IH]; cbn [map]; constructor; [|exact IH].
  rewrite in_map_iff. intros (k' & [= ->] & Hin). exact (Hnotin Hin).
Qed.

Lemma listed_ids_are_distinct_witness :
  List.NoDup
    (map (fun o : fields => o !! "id")
         [stored_course 1000 1001 3; stored_databases 101 1002 1003]).
Proof.
  apply (listed_ids_are_distinct Course two_courses).
  - apply two_courses_reachable.
  - by_evaluation.
Defined.

Lemma values_without_key (d : pydict fields) id :
  all_rows keyed d ->
  dict_values (List.filter (fun kv => negb (bool_decide (kv.1 = id))) d)
  = List.filter (fun o : fields => negb (bool_decide (o !! "id" = Some (VUuid id))))
                (dict_values d).
Proof.
  unfold dict_values. induction d as [|[k o] d IH]; intros Hall;
    cbn [List.filter map fst snd]; [reflexivity|].
  pose proof (Hall k o (or_introl eq_refl)) as Hk. unfold keyed in Hk.
  assert (IH' : map snd (List.filter (fun kv => negb (bool_decide (kv.1 = id))) d)
                = List.filter
                    (fun o : fields =>
                       negb (bool_decide (o !! "id" = Some (VUuid id))))
                    (map snd d)).
  { apply IH. intros k' o' Hin. apply Hall. right. exact Hin. }
  rewrite Hk. destruct (decide (k = id)) as [->|Hne].
  - rewrite !bool_decide_eq_true_2 by reflexivity. cbn [negb]. exact IH'.
  - rewrite !bool_decide_eq_false_2 by congruence. cbn [negb map snd].
    rewrite IH'. reflexivity.
Qed.

Lemma records_set_same r d w : records r (set_rows (table_of r) d w) = d.
Proof. unfold records. apply rows_set_rows. Qed.

Lemma delete_run r del id w :
  delete r = Some del ->
  del id w =
    match getitem (records r w) id with
    | Some _ => (Ok tt, set_rows (table_of r) (delitem (records r w) id) w)
    | None => (Raise (HTTPException 404 (not_found r)), w)
    end.
Proof. intros Hdel. rewrite (delete_unfold r del Hdel). apply delete_in_run. Qed.

(** X8: in every state the process reaches, deleting a stored address or
    course succeeds; afterwards Get and a second Delete of that
    identifier answer 404, every other identifier looks up what it did,
    and List returns the records it returned before, in their order,
    without the one that carried the identifier. *)
Theorem delete_removes_exactly_that_record r del w id :
  reachable w ->
  delete r = Some del ->
  contains (records r w) id = true ->
  exists w',
    del id w = (Ok tt, w')
    /\ fst (get r id w') = Raise (HTTPException 404 (not_found r))
    /\ fst (del id w') = Raise (HTTPException 404 (not_found r))
    /\ (forall k, k <> id -> getitem (records r w') k = getitem (records r w) k)
    /\ (exists l,
          fst (list_all r w) = Ok l
          /\ fst (list_all r w')
             = Ok (List.filter
                     (fun o : fields =>
                        negb (bool_decide (o !! "id" = Some (VUuid id)))) l)).
Proof.
  intros Hre Hdel Hc.
  destruct (reachable_invariant w Hre) as (_ & Hrows).
  destruct (Hrows r) as (Hnd & Hall).
  apply contains_true in Hc as [o Hget].
  exists (set_rows (table_of r) (delitem (records r w) id) w).
  rewrite !(delete_run r del _ _ Hdel), get_run, !records_set_same, Hget.
  rewrite (getitem_delitem_eq _ _ Hnd). cbn [fst].
  split; [reflexivity|]. split; [reflexivity|]. split; [reflexivity|]. split.
  - intros k Hk. apply getitem_delitem_ne, Hk.
  - exists (dict_values (records r w)). rewrite !list_all_run. cbn [fst].
    split; [reflexivity|]. f_equal. rewrite records_set_same.
    rewrite (dict_values_delitem _ _ Hnd). apply values_without_key.
    intros k' o' Hin. apply (Hall k' o' Hin).
Qed.

Lemma delete_removes_exactly_that_record_witness :
  exists w',
    delete_course 100 two_courses = (Ok tt, w')
    /\ fst (get Course 100 w') = Raise (HTTPException 404 (not_found Course))
    /\ fst (delete_course 100 w') = Raise (HTTPException 404 (not_found Course))
    /\ (forall k, k <> 100 ->
                  getitem (records Course w') k
                  = getitem (records Course two_courses) k)
    /\ (exists l,
          fst (list_all Course two_courses) = Ok l
          /\ fst (list_all Course w')
             = Ok (List.filter
                     (fun o : fields =>
                        negb (bool_decide (o !! "id" = Some (VUuid 100)))) l)).
Proof.
  apply (delete_removes_exactly_that_record Course delete_course two_courses 100).
  - apply two_courses_reachable.
  - reflexivity.
  - by_evaluation.
Defined.

(* ===================================================================== *)
(** * How updates compose, and when they are rejected *)
(* ===================================================================== *)

(** X9: of two accepted updates of one record the later wins: a field is
    the second payload's where the second supplies it, else the first
    payload's where the first supplies it, else the stored one. *)
Theorem the_later_update_wins r w id u1 u2 old :
  wf_world w = true ->
  is_update (update_model r) u1 = true ->
  is_update (update_model r) u2 = true ->
  getitem (records r w) id = Some old ->
  accepts (read_model r) (model_dump_exclude_unset u1) = true ->
  accepts (read_model r) (model_dump_exclude_unset u2) = true ->
  exists new,
    fst (update r id u2 (snd (update r id u1 w))) = Ok new
    /\ forall n,
         new !! n =
           if decide (n ∈ fields_set u2) then values u2 !! n
           else if decide (n ∈ fields_set u1) then values u1 !! n
                else old !! n.
Proof.
  intros Hwf Hu1 Hu2 Hget Ha1 Ha2.
  pose proof (update_preserves_wf r w id u1 Hwf Hu1) as Hwf1.
  rewrite (update_run r _ id u2 Hwf1 Hu2).
  rewrite (update_run r w id u1 Hwf Hu1), Hget, Ha1. cbn [snd].
  rewrite records_set_same, getitem_setitem_eq, Ha2. cbn [fst].
  eexists. split; [reflexivity|]. intros n.
  rewrite !lookup_union, !lookup_exclude_unset.
  destruct (decide (n ∈ fields_set u2)) as [H2|H2].
  - destruct (exclude_unset_supplied _ _ _ Hu2 H2) as (v & Hv & _).
    rewrite Hv. cbn [union option_union union_with option_union_with].
    destruct (if decide (n ∈ fields_set u1) then values u1 !! n else None);
      destruct (old !! n); reflexivity.
  - rewrite (left_id_L None union).
    destruct (decide (n ∈ fields_set u1)) as [H1|H1].
    + destruct (exclude_unset_supplied _ _ _ Hu1 H1) as (v & Hv & _).
      rewrite Hv. destruct (old !! n); reflexivity.
    + apply (left_id_L None union).
Qed.

Lemma the_later_update_wins_witness :
  exists new,
    fst (update Course 100 retitle
           (snd (update Course 100 credits_4 (one_course ticking_clock))))
    = Ok new
    /\ forall n,
         new !! n =
           if decide (n ∈ fields_set retitle) then values retitle !! n
           else if decide (n ∈ fields_set credits_4) then values credits_4 !! n
                else stored_course 1000 1001 3 !! n.
Proof.
  apply (the_later_update_wins Course (one_course ticking_clock) 100
           credits_4 retitle (stored_course 1000 1001 3)); by_evaluation.
Defined.

Lemma accepts_In s kw f :
  accepts s kw = true -> In f s -> typed_in kw f = true.
Proof. unfold accepts. rewrite forallb_forall. auto. Qed.

(** X10: the update of a stored record raises the validation error, and
    changes nothing, exactly when its payload supplies null for a field
    the Read model does not declare nullable; every other update of a
    stored record succeeds. *)
Theorem update_is_rejected_exactly_on_a_null r w id u old :
  wf_world w = true ->
  is_update (update_model r) u = true ->
  getitem (records r w) id = Some old ->
  (update r id u w = (Raise ValidationError, w)
   <-> exists f, In f (read_model r)
                 /\ fname f ∈ fields_set u
                 /\ values u !! fname f = Some VNone
                 /\ has_type VNone (ftyp f) = false)
  /\ (update r id u w = (Raise ValidationError, w)
      \/ exists new w', update r id u w = (Ok new, w')).
Proof.
  intros Hwf Hu Hget. rewrite (update_run r w id u Hwf Hu), Hget.
  destruct (accepts (read_model r) (model_dump_exclude_unset u)) eqn:Hacc.
  - split; [split|right; eauto].
    + discriminate.
    + intros (f & Hf & Hset & Hnull & Hty). exfalso.
      pose proof (accepts_In _ _ f Hacc Hf) as Ht. unfold typed_in in Ht.
      rewrite lookup_exclude_unset, decide_True, Hnull in Ht by exact Hset.
      congruence.
  - split; [split|left; reflexivity].
    + intros _. apply (rejected_update_supplies_null r u Hu Hacc).
    + reflexivity.
Qed.

Lemma update_is_rejected_exactly_on_a_null_witness :
  (update Course 100 null_title (one_course ticking_clock)
   = (Raise ValidationError, one_course ticking_clock)
   <-> exists f, In f (read_model Course)
                 /\ fname f ∈ fields_set null_title
                 /\ values null_title !! fname f = Some VNone
                 /\ has_type VNone (ftyp f) = false)
  /\ (update Course 100 null_title (one_course ticking_clock)
      = (Raise ValidationError, one_course ticking_clock)
      \/ exists new w',
           update Course 100 null_title (one_course ticking_clock)
           = (Ok new, w')).
Proof.
  apply (update_is_rejected_exactly_on_a_null Course (one_course ticking_clock)
           100 null_title (stored_course 1000 1001 3)); by_evaluation.
Defined.

(* ===================================================================== *)
(** * List after Create *)
(* ===================================================================== *)

Lemma dict_values_setitem_present (d : pydict fields) k v :
  List.NoDup (map fst d) -> all_rows keyed d -> contains d k = true ->
  dict_values (setitem d k v)
  = map (fun o : fields =>
           if bool_decide (o !! "id" = Some (VUuid k)) then v else o)
        (dict_values d).
Proof.
  unfold dict_values, contains.
  induction d as [|[k0 o0] d IH]; cbn [getitem setitem map fst snd];
    [discriminate|].
  intros Hnd Hall Hc. inversion Hnd as [|? ? Hnotin Hnd']; subst.
  pose proof (Hall k0 o0 (or_introl eq_refl)) as Hk0. unfold keyed in Hk0.
  assert (Hall' : all_rows keyed d).
  { intros k' o' Hin. apply Hall. right. exact Hin. }
  rewrite Hk0. destruct (decide (k = k0)) as [->|Hne].
  - rewrite bool_decide_eq_true_2 by reflexivity. cbn [map snd]. f_equal.
    clear IH Hc Hnd Hall. induction d as [|[k1 o1] d IH]; cbn [map snd];
      [reflexivity|].
    rewrite (Hall' k1 o1 (or_introl eq_refl)).
    rewrite bool_decide_eq_false_2.
    + f_equal. apply IH.
      * intros Hin. apply Hnotin. right. exact Hin.
      * inversion Hnd' as [|? ? _ H]; exact H.
      * intros k' o' Hin. apply Hall'. right. exact Hin.
    + intros [= ->]. apply Hnotin. left. reflexivity.
  - rewrite bool_decide_eq_false_2 by congruence. cbn [map snd]. f_equal.
    apply IH; assumption.
Qed.

(** X11: in every state the process reaches, List after a successful
    Create returns what it returned before followed by the new record
    when the record's identifier was not yet a key, and otherwise what it
    returned before with the record of that identifier replaced, in its
    place, by the new one. *)
Theorem list_after_create r w payload new w' :
  reachable w ->
  create r payload w = (Ok new, w') ->
  exists id l,
    new !! "id" = Some (VUuid id)
    /\ fst (list_all r w) = Ok l
    /\ fst (list_all r w') =
         Ok (if contains (records r w) id
             then map (fun o : fields =>
                         if bool_decide (o !! "id" = Some (VUuid id))
                         then new else o) l
             else (l ++ [new])%list).
Proof.
  intros Hre Hrun.
  destruct (reachable_invariant w Hre) as (_ & Hrows).
  destruct (Hrows r) as (Hnd & Hall).
  destruct (create_stores_or_fails r payload w)
    as (c & n & [(o & id & Ho & Hid)|[e He]]); [|congruence].
  rewrite Ho in Hrun. injection Hrun as <- <-.
  exists id, (dict_values (records r w)). rewrite !list_all_run. cbn [fst].
  split; [exact Hid|]. split; [reflexivity|]. f_equal.
  rewrite records_after_store.
  destruct (contains (records r w) id) eqn:Hc.
  - apply dict_values_setitem_present; [exact Hnd| |exact Hc].
    intros k' o' Hin. apply (Hall k' o' Hin).
  - apply dict_values_setitem_new, contains_false, Hc.
Qed.

Lemma list_after_create_witness :
  exists id l,
    stored_databases 101 1002 1003 !! "id" = Some (VUuid id)
    /\ fst (list_all Course (one_course ticking_clock)) = Ok l
    /\ fst (list_all Course two_courses) =
         Ok (if contains (records Course (one_course ticking_clock)) id
             then map (fun o : fields =>
                         if bool_decide (o !! "id" = Some (VUuid id))
                         then stored_databases 101 1002 1003 else o) l
             else (l ++ [stored_databases 101 1002 1003])%list).
Proof.
  apply (list_after_create Course (one_course ticking_clock) databases
           (stored_databases 101 1002 1003) two_courses).
  - apply one_course_reachable.
  - by_evaluation.
Defined.

(* ===================================================================== *)
(** * The filters of List *)
(* ===================================================================== *)

(** X12: the city and the country filter of persons are tested apart:
    a stored person is listed when one of its addresses has the city and
    one of its addresses, not necessarily the same, has the country; a
    person without addresses is listed only when neither is supplied. *)
Theorem person_city_and_country_are_tested_apart w city country p :
  exists l,
    fst (list_persons None None None None None None city country w) = Ok l
    /\ (In p l <->
        In p (dict_values (persons w))
        /\ (forall c, city = Some c ->
                      exists a, In a (attr_addresses p) /\ addr_city a = c)
        /\ (forall c, country = Some c ->
                      exists a, In a (attr_addresses p) /\ addr_country a = c)).
Proof.
  rewrite list_persons_run. eexists. split; [reflexivity|].
  rewrite filter_In. unfold person_matches. cbn [supplied andb].
  assert (Hany : forall (f : Addr -> string) (x : option string),
             supplied x (fun c => some_address p (fun a => bool_decide (f a = c)))
             = true
             <-> forall c, x = Some c ->
                           exists a, In a (attr_addresses p) /\ f a = c).
  { intros f [c|]; cbn [supplied]; [|split; [discriminate|reflexivity]].
    unfold some_address. rewrite existsb_exists. split.
    - intros (a & Hin & Ha) c' [= <-]. exists a. split; [exact Hin|].
      apply bool_decide_eq_true in Ha. exact Ha.
    - intros H. destruct (H c eq_refl) as (a & Hin & Ha). exists a.
      split; [exact Hin|]. apply bool_decide_eq_true. exact Ha. }
  rewrite andb_true_iff, (Hany addr_city city), (Hany addr_country country).
  tauto.
Qed.

(** A person with an address in New York, USA and one in Paris, France
    is found under city Paris and country USA. *)
Example traveller_in_paris_and_usa :
  fst (list_persons None None None None None None (Some "Paris") (Some "USA")
                    one_person)
  = Ok (dict_values (persons one_person))
  /\ fst (list_persons None None None None None None (Some "Paris")
                       (Some "Italy") one_person)
     = Ok [].
Proof. repeat split; by_evaluation. Qed.

Lemma read_decimal_zero s : read_decimal (String "0" s) = read_decimal s.
Proof.
  unfold read_decimal. cbn [NilEmpty.uint_of_string uint_of_char].
  destruct (NilEmpty.uint_of_string s); reflexivity.
Qed.

Lemma read_decimal_zfill k s : read_decimal (zfill k s) = read_decimal s.
Proof.
  induction k as [|k IH]; cbn [zfill]; [reflexivity|].
  rewrite read_decimal_zero. exact IH.
Qed.

Lemma read_decimal_decimal n : read_decimal (decimal n) = n.
Proof.
  unfold read_decimal, decimal, NilZero.string_of_uint.
  rewrite <- (DecimalNat.Unsigned.of_to n) at 2.
  destruct (Nat.to_uint n); try reflexivity; rewrite NilEmpty.usu; reflexivity.
Qed.

(** The padded numeral reads back as the number: two numbers with the
    same padded rendering are the same. *)
Lemma read_decimal_padded width n : read_decimal (padded width n) = n.
Proof. unfold padded. rewrite read_decimal_zfill. apply read_decimal_decimal. Qed.

Lemma no_dash_string_of_uint d : no_dash (NilEmpty.string_of_uint d) = true.
Proof. induction d; cbn [NilEmpty.string_of_uint no_dash]; auto. Qed.

Lemma no_dash_zfill k s : no_dash s = true -> no_dash (zfill k s) = true.
Proof. intros Hs. induction k as [|k IH]; cbn [zfill no_dash]; auto. Qed.

Lemma no_dash_padded width n : no_dash (padded width n) = true.
Proof.
  unfold padded. apply no_dash_zfill. unfold decimal, NilZero.string_of_uint.
  destruct (Nat.to_uint n) eqn:Hd; try reflexivity;
    rewrite <- Hd; apply no_dash_string_of_uint.
Qed.

(** Two strings cut at their first ['-'] agree part by part. *)
Lemma split_at_dash s1 s2 t1 t2 :
  no_dash s1 = true -> no_dash s2 = true ->
  (s1 ++ String "-" t1)%string = (s2 ++ String "-" t2)%string ->
  s1 = s2 /\ t1 = t2.
Proof.
  revert s2. induction s1 as [|c1 s1 IH]; intros [|c2 s2];
    cbn [no_dash String.append]; intros H1 H2 Heq.
  - injection Heq as <-. auto.
  - injection Heq as <- _. discriminate.
  - injection Heq as -> _. discriminate.
  - apply andb_true_iff in H1 as [_ H1]. apply andb_true_iff in H2 as [_ H2].
    injection Heq as <- Heq. destruct (IH s2 H1 H2 Heq) as [<- <-]. auto.
Qed.

(** The textual rendering determines the date. *)
Lemma date_isoformat_inj d1 d2 :
  date_isoformat d1 = date_isoformat d2 -> d1 = d2.
Proof.
  unfold date_isoformat.
  change ("-" ++ ?x)%string with (String "-" x).
  intros Heq.
  apply split_at_dash in Heq as [Hy Heq]; try apply no_dash_padded.
  apply split_at_dash in Heq as [Hm Hd]; try apply no_dash_padded.
  apply (f_equal read_decimal) in Hy, Hm, Hd.
  rewrite !read_decimal_padded in Hy, Hm, Hd.
  destruct d1, d2. cbn [year month day] in *. congruence.
Qed.

Lemma instance_date_field s (a : fields) name :
  is_instance s a = true -> In (Field name TDate Required) s ->
  exists d, a !! name = Some (VDate d).
Proof.
  intros Hi Hf. destruct (is_instance_present _ _ _ Hi Hf) as [v Hv].
  pose proof (accepts_In _ _ _ (is_instance_accepts _ _ Hi) Hf) as Ht.
  unfold typed_in in Ht. cbn [fname ftyp] in *. rewrite Hv in Ht.
  destruct v; try discriminate. eauto.
Qed.

Lemma filter_same_In {A} (p q : A -> bool) (l : list A) :
  (forall x, In x l -> p x = q x) -> List.filter p l = List.filter q l.
Proof.
  induction l as [|x l IH]; intros Hpq; cbn [List.filter]; [reflexivity|].
  rewrite (Hpq x (or_introl eq_refl)), IH; [reflexivity|].
  intros y Hy. apply Hpq. right. exact Hy.
Qed.

Lemma wf_rows_values s (d : pydict fields) a :
  wf_rows s d = true -> In a (dict_values d) -> is_instance s a = true.
Proof.
  unfold wf_rows, dict_values. rewrite forallb_forall, in_map_iff.
  intros Hall ([k o] & <- & Hin). apply (Hall (k, o) Hin).
Qed.

(** X13: a date filter given the rendering [YYYY-MM-DD] of a date selects
    the assignments whose stored date is that date, those and no others:
    comparing renderings is comparing dates. *)
Theorem date_filter_selects_the_date w d :
  wf_world w = true ->
  list_assignments None None None (Some (date_isoformat d)) None w
  = (Ok (List.filter (fun a : fields => bool_decide (a !! "due_date" = Some (VDate d)))
                     (dict_values (assignments w))), w)
  /\ list_assignments None None None None (Some (date_isoformat d)) w
     = (Ok (List.filter
              (fun a : fields => bool_decide (a !! "assigned_date" = Some (VDate d)))
              (dict_values (assignments w))), w).
Proof.
  intros Hwf. pose proof (wf_world_rows Assignment w Hwf) as Hrows.
  change (records Assignment w) with (assignments w) in Hrows.
  assert (Hdate : forall name a,
             In (Field name TDate Required) AssignmentRead ->
             In a (dict_values (assignments w)) ->
             date_renders_as a name (date_isoformat d)
             = bool_decide (a !! name = Some (VDate d))).
  { intros name a Hname Hin.
    destruct (instance_date_field _ a name (wf_rows_values _ _ _ Hrows Hin) Hname)
      as [d' Hd'].
    unfold date_renders_as, attr_date. rewrite Hd'. cbn [str_date].
    destruct (decide (d' = d)) as [->|Hne].
    - rewrite !bool_decide_eq_true_2; reflexivity.
    - rewrite !bool_decide_eq_false_2; [reflexivity|congruence|].
      intros H. apply Hne, date_isoformat_inj, H. }
  rewrite !list_assignments_run. unfold assignment_matches.
  cbn [supplied andb]. split; do 2 f_equal; apply filter_same_In; intros a Hin.
  - rewrite andb_true_r. apply Hdate; [|exact Hin].
    cbn. tauto.
  - apply Hdate; [|exact Hin]. cbn. tauto.
Qed.

Lemma date_filter_selects_the_date_witness :
  list_assignments None None None (Some (date_isoformat (mkdate 2025 9 15))) None
                   one_assignment
  = (Ok (List.filter
           (fun a : fields =>
              bool_decide (a !! "due_date" = Some (VDate (mkdate 2025 9 15))))
           (dict_values (assignments one_assignment))), one_assignment)
  /\ list_assignments None None None None
                      (Some (date_isoformat (mkdate 2025 9 15))) one_assignment
     = (Ok (List.filter
              (fun a : fields =>
                 bool_decide
                   (a !! "assigned_date" = Some (VDate (mkdate 2025 9 15))))
              (dict_values (assignments one_assignment))), one_assignment).
Proof.
  apply (date_filter_selects_the_date one_assignment (mkdate 2025 9 15)).
  by_evaluation.
Defined.

(** The due date is found under its rendering and under no other
    spelling of it. *)
Example list_assignments_by_due_date :
  fst (list_assignments None None None (Some "2025-09-15") None one_assignment)
  = Ok [stored_homework]
  /\ fst (list_assignments None None None (Some "2025-9-15") None one_assignment)
     = Ok []
  /\ fst (list_assignments None None None None (Some "2025-09-15") one_assignment)
     = Ok [].
Proof. repeat split; by_evaluation. Qed.

(* ===================================================================== *)
(** * What the stored records are *)
(* ===================================================================== *)

(** X14: in every state the process reaches, the record Get returns is
    an instance of the resource's Read model: it has exactly the
    declared fields, each with a value of the declared type, whatever
    payloads were merged into it before. *)
Theorem get_returns_an_instance r w k o :
  reachable w -> fst (get r k w) = Ok o -> is_instance (read_model r) o = true.
Proof.
  intros Hre Hget.
  apply (wf_world_getitem r w k o (reachable_wf w Hre)), get_Ok, Hget.
Qed.

Lemma get_returns_an_instance_witness :
  is_instance (read_model Course) (stored_databases 101 1002 1003) = true.
Proof.
  apply (get_returns_an_instance Course two_courses 101).
  - apply two_courses_reachable.
  - by_evaluation.
Defined.

(** X15: a successful update, on any resource and with any payload,
    returns a record with the [updated_at] and the [created_at] the
    stored record had, and the process has read the clock and drawn from
    uuid4 as often after it as before. *)
Theorem update_reads_no_clock r w id u old new w' :
  wf_world w = true ->
  is_update (update_model r) u = true ->
  getitem (records r w) id = Some old ->
  update r id u w = (Ok new, w') ->
  new !! "updated_at" = old !! "updated_at"
  /\ new !! "created_at" = old !! "created_at"
  /\ clock_reads w' = clock_reads w
  /\ uuid_draws w' = uuid_draws w.
Proof.
  intros Hwf Hu Hget. rewrite (update_run r w id u Hwf Hu), Hget.
  destruct (accepts (read_model r) (model_dump_exclude_unset u)); [|discriminate].
  intros [= <- <-].
  destruct (update_model_has_no_server_fields r) as (_ & N2 & N3).
  rewrite !lookup_union, (exclude_unset_undeclared _ _ _ Hu N2),
    (exclude_unset_undeclared _ _ _ Hu N3), !(left_id_L None union).
  repeat split; destruct r; reflexivity.
Qed.

Lemma update_reads_no_clock_witness :
  stored_course 1000 1001 4 !! "updated_at"
  = stored_course 1000 1001 3 !! "updated_at"
  /\ stored_course 1000 1001 4 !! "created_at"
     = stored_course 1000 1001 3 !! "created_at"
  /\ clock_reads
       (mkWorld [] [] [(100, stored_course 1000 1001 4)] []
                ticking_clock 2 fresh_uuids 1)
     = clock_reads (one_course ticking_clock)
  /\ uuid_draws
       (mkWorld [] [] [(100, stored_course 1000 1001 4)] []
                ticking_clock 2 fresh_uuids 1)
     = uuid_draws (one_course ticking_clock).
Proof.
  apply (update_reads_no_clock Course (one_course ticking_clock) 100 credits_4
           (stored_course 1000 1001 3) (stored_course 1000 1001 4)
           (mkWorld [] [] [(100, stored_course 1000 1001 4)] []
                    ticking_clock 2 fresh_uuids 1)); by_evaluation.
Defined.

(* ===================================================================== *)
(** * Identifiers and timestamps come from uuid4 and the clock *)
(* ===================================================================== *)

Lemma drawn_row_advance r c u w k o :
  drawn_row r w k o -> drawn_row r (advance c u w) k o.
Proof.
  intros (Hkey & n & Hn & Hc & Hu). split.
  - intros Hr. destruct (Hkey Hr) as (i & Hi & ->). exists i.
    cbn [advance uuid_draws uuids]. split; [lia|reflexivity].
  - exists n. cbn [advance clock_reads clock]. split; [lia|auto].
Qed.

Lemma drawn_row_set_rows r t d w k o :
  drawn_row r (set_rows t d w) k o <-> drawn_row r w k o.
Proof. destruct t; reflexivity. Qed.

(** Replacing the rows of one resource, after more draws and reads. *)
Lemma drawn_set_rows r d w c u :
  drawn w ->
  all_rows (drawn_row r (advance c u w)) d ->
  drawn (set_rows (table_of r) d (advance c u w)).
Proof.
  intros Hw Hd r' k o Hin. apply drawn_row_set_rows.
  rewrite records_set_rows in Hin. destruct (decide (r' = r)) as [->|Hne].
  - apply Hd, Hin.
  - rewrite records_advance in Hin. apply drawn_row_advance, (Hw r' k o Hin).
Qed.

Lemma all_rows_advance r c u w d :
  all_rows (drawn_row r w) d -> all_rows (drawn_row r (advance c u w)) d.
Proof. intros Hd k o Hin. apply drawn_row_advance, Hd, Hin. Qed.

Lemma start_drawn clk ids : drawn (start clk ids).
Proof. intros r k o Hin. destruct r; destruct Hin. Qed.

Lemma create_preserves_drawn r w payload :
  drawn w -> is_instance (create_model r) payload = true ->
  drawn (snd (create r payload w)).
Proof.
  intros Hw Hpay. destruct (decide (r = Address)) as [->|Hr].
  - destruct (address_payload_id payload Hpay) as [aid Hid].
    cbn [create]. rewrite (create_address_run payload aid w Hpay Hid).
    destruct (contains (addresses w) aid); [exact Hw|]. cbn [snd].
    assert (A2 : payload !! "created_at" = None).
    { apply (is_instance_absent _ _ _ Hpay).
      apply (bool_decide_unpack _); vm_compute; exact I. }
    assert (A3 : payload !! "updated_at" = None).
    { apply (is_instance_absent _ _ _ Hpay).
      apply (bool_decide_unpack _); vm_compute; exact I. }
    apply (drawn_set_rows Address); [exact Hw|].
    apply all_rows_setitem; [apply all_rows_advance, (Hw Address)|]. split.
    + intros Hne. destruct Hne. reflexivity.
    + exists (clock_reads w). cbn [advance clock_reads clock].
      rewrite !lookup_union, A2, A3, lookup_stamps_created,
        lookup_stamps_updated. split; [lia|split; reflexivity].
  - rewrite (create_run r payload w Hr Hpay). cbn [snd].
    destruct (create_model_no_server_fields r Hr) as (N1 & N2 & N3).
    apply drawn_set_rows; [exact Hw|].
    apply all_rows_setitem; [apply all_rows_advance, (Hw r)|]. split.
    + intros _. exists (uuid_draws w). cbn [advance uuid_draws uuids].
      split; [lia|reflexivity].
    + exists (clock_reads w). cbn [advance clock_reads clock].
      rewrite !lookup_union, (is_instance_absent _ _ _ Hpay N2),
        (is_instance_absent _ _ _ Hpay N3), lookup_server_values_created,
        lookup_server_values_updated. split; [lia|split; reflexivity].
Qed.

Lemma update_preserves_drawn r w id u :
  wf_world w = true -> drawn w -> is_update (update_model r) u = true ->
  drawn (snd (update r id u w)).
Proof.
  intros Hwf Hw Hu. rewrite (update_run r w id u Hwf Hu).
  destruct (getitem (records r w) id) as [old|] eqn:Hget; [|exact Hw].
  destruct (accepts (read_model r) (model_dump_exclude_unset u)); [|exact Hw].
  cbn [snd]. rewrite <- (advance_0 w) at 2.
  destruct (update_model_has_no_server_fields r) as (_ & N2 & N3).
  destruct (Hw r id old (getitem_In _ _ _ Hget)) as (Hkey & n & Hn & Hc & Hup).
  apply drawn_set_rows; [exact Hw|]. rewrite advance_0.
  apply all_rows_setitem; [apply (Hw r)|]. split; [exact Hkey|].
  exists n. rewrite !lookup_union, (exclude_unset_undeclared _ _ _ Hu N2),
    (exclude_unset_undeclared _ _ _ Hu N3), !(left_id_L None union). auto.
Qed.

Lemma delete_preserves_drawn r del w id :
  delete r = Some del -> drawn w -> drawn (snd (del id w)).
Proof.
  intros Hdel Hw. rewrite (delete_run r del id w Hdel).
  destruct (getitem (records r w) id); [|exact Hw].
  cbn [snd]. rewrite <- (advance_0 w) at 2.
  apply drawn_set_rows; [exact Hw|]. rewrite advance_0.
  apply all_rows_delitem, (Hw r).
Qed.

(** In every state the process reaches, the keys of persons, courses and
    assignments are values uuid4 has returned, and the timestamps of
    every record are two consecutive clock readings already taken. *)
Lemma reachable_drawn w : reachable w -> drawn w.
Proof.
  induction 1 as [clk ids|w w' Hre IH Hstep].
  - apply start_drawn.
  - destruct Hstep.
    + apply create_preserves_drawn; assumption.
    + rewrite get_preserves_state. exact IH.
    + apply update_preserves_drawn; [apply reachable_wf, Hre|assumption..].
    + apply (delete_preserves_drawn r del); assumption.
    + exact IH.
Qed.

(** With a uuid4 that never repeats itself, its next value is no key of
    persons, courses or assignments. *)
Lemma next_uuid_is_fresh r w :
  r <> Address -> reachable w -> never_repeats (uuids w) ->
  getitem (records r w) (uuids w (uuid_draws w)) = None.
Proof.
  intros Hr Hre Hinj. apply getitem_is_None. intros Hin.
  apply in_map_iff in Hin as ([k o] & Hk & Hin). cbn [fst] in Hk. subst k.
  destruct (reachable_drawn w Hre r _ o Hin) as (Hkey & _).
  destruct (Hkey Hr) as (i & Hi & Heq). apply Hinj in Heq. lia.
Qed.

(** C7, amended: the record a successful Create returns has as
    [created_at] the next clock read and as [updated_at] the read after
    it, so the two are equal exactly when the two reads return the same
    instant (and ordered when the clock does not go back). The store
    gives the record a fresh identifier, one that was no key of the store
    before: on addresses the payload's identifier, which the conflict
    check has found absent; on persons, courses and assignments the next
    uuid4 value, which is no key in any state the process reaches as long
    as uuid4 never returns a value twice. The record is stored under that
    identifier. *)
Theorem C7_create_stamps_from_two_clock_reads r w payload new w' :
  is_instance (create_model r) payload = true ->
  create r payload w = (Ok new, w') ->
  new !! "created_at" = Some (VDatetime (clock w (clock_reads w)))
  /\ new !! "updated_at" = Some (VDatetime (clock w (S (clock_reads w))))
  /\ (new !! "created_at" = new !! "updated_at"
      <-> clock w (clock_reads w) = clock w (S (clock_reads w)))
  /\ (exists id,
        new !! "id" = Some (VUuid id)
        /\ getitem (records r w') id = Some new
        /\ (if decide (r = Address)
            then payload !! "id" = Some (VUuid id)
                 /\ getitem (records r w) id = None
            else id = uuids w (uuid_draws w)
                 /\ (reachable w -> never_repeats (uuids w) ->
                     getitem (records r w) id = None))).
Proof.
  intros Hpay Hrun.
  assert (Hstamp : forall t1 t2 : datetime,
             Some (VDatetime t1) = Some (VDatetime t2) <-> t1 = t2).
  { intros t1 t2. split; [intros [= ->]|intros ->]; reflexivity. }
  destruct (decide (r = Address)) as [->|Hr].
  - destruct (address_payload_id payload Hpay) as [aid Hid].
    assert (A2 : payload !! "created_at" = None).
    { apply (is_instance_absent _ _ _ Hpay).
      apply (bool_decide_unpack _); vm_compute; exact I. }
    assert (A3 : payload !! "updated_at" = None).
    { apply (is_instance_absent _ _ _ Hpay).
      apply (bool_decide_unpack _); vm_compute; exact I. }
    cbn [create] in Hrun.
    rewrite (create_address_run payload aid w Hpay Hid) in Hrun.
    destruct (contains (addresses w) aid) eqn:Hc; [discriminate|].
    injection Hrun as <- <-.
    rewrite !lookup_union, A2, A3, Hid.
    rewrite lookup_stamps_created, lookup_stamps_updated.
    rewrite lookup_stamps_other by discriminate.
    cbn [union option_union union_with option_union_with].
    split; [reflexivity|]. split; [reflexivity|]. split; [apply Hstamp|].
    exists aid. split; [reflexivity|].
    unfold records. cbn [table_of rows addresses].
    rewrite getitem_setitem_eq.
    split; [reflexivity|]. split; [reflexivity|].
    apply contains_false, Hc.
  - rewrite (create_run r payload w Hr Hpay) in Hrun.
    injection Hrun as <- <-.
    destruct (create_model_no_server_fields r Hr) as (N1 & N2 & N3).
    rewrite !lookup_union.
    rewrite (is_instance_absent _ _ _ Hpay N1).
    rewrite (is_instance_absent _ _ _ Hpay N2).
    rewrite (is_instance_absent _ _ _ Hpay N3).
    rewrite lookup_server_values_id, lookup_server_values_created,
      lookup_server_values_updated.
    cbn [union option_union union_with option_union_with].
    split; [reflexivity|]. split; [reflexivity|]. split; [apply Hstamp|].
    exists (uuids w (uuid_draws w)). split; [reflexivity|].
    rewrite records_after_store, getitem_setitem_eq.
    split; [reflexivity|]. split; [reflexivity|].
    apply (next_uuid_is_fresh r w Hr).
Qed.

Lemma fresh_uuids_never_repeat : never_repeats fresh_uuids.
Proof. intros i j. unfold fresh_uuids. lia. Qed.

Lemma C7_create_stamps_from_two_clock_reads_witness :
  let w := one_course coarse_clock in
  let new := stored_databases 101 3600001000 3600001000 in
  let w' := mkWorld [] []
                    [(100, stored_course 1000 1000 3);
                     (101, stored_databases 101 3600001000 3600001000)] []
                    coarse_clock 4 fresh_uuids 2 in
  new !! "created_at" = Some (VDatetime (clock w (clock_reads w)))
  /\ new !! "updated_at" = Some (VDatetime (clock w (S (clock_reads w))))
  /\ (new !! "created_at" = new !! "updated_at"
      <-> clock w (clock_reads w) = clock w (S (clock_reads w)))
  /\ (exists id,
        new !! "id" = Some (VUuid id)
        /\ getitem (records Course w') id = Some new
        /\ (if decide (Course = Address)
            then databases !! "id" = Some (VUuid id)
                 /\ getitem (records Course w) id = None
            else id = uuids w (uuid_draws w)
                 /\ (reachable w -> never_repeats (uuids w) ->
                     getitem (records Course w) id = None))).
Proof.
  cbv zeta.
  apply (C7_create_stamps_from_two_clock_reads Course (one_course coarse_clock)
           databases (stored_databases 101 3600001000 3600001000)
           (mkWorld [] []
                    [(100, stored_course 1000 1000 3);
                     (101, stored_databases 101 3600001000 3600001000)] []
                    coarse_clock 4 fresh_uuids 2)); by_evaluation.
Defined.

(** The identifier of the second example course is fresh: the state
    after the first create is reachable and its uuid4 never repeats. *)
Example second_course_gets_a_fresh_id :
  getitem (records Course (one_course coarse_clock))
          (uuids (one_course coarse_clock) (uuid_draws (one_course coarse_clock)))
  = None.
Proof.
  apply next_uuid_is_fresh.
  - discriminate.
  - apply one_course_reachable.
  - apply fresh_uuids_never_repeat.
Qed.

(** X6: in every state the process reaches, the [created_at] and the
    [updated_at] of the record Get returns are two consecutive readings
    of the clock, both among the readings the process has taken; so with
    a clock that never goes back [created_at] is not after
    [updated_at]. *)
Theorem created_at_is_not_after_updated_at r w k o :
  reachable w ->
  fst (get r k w) = Ok o ->
  exists n,
    (S n < clock_reads w)%nat
    /\ o !! "created_at" = Some (VDatetime (clock w n))
    /\ o !! "updated_at" = Some (VDatetime (clock w (S n)))
    /\ ((forall m, clock w m <= clock w (S m)) ->
        exists t1 t2,
          o !! "created_at" = Some (VDatetime t1)
          /\ o !! "updated_at" = Some (VDatetime t2)
          /\ t1 <= t2).
Proof.
  intros Hre Hget.
  destruct (reachable_drawn w Hre r k o (getitem_In _ _ _ (get_Ok _ _ _ _ Hget)))
    as (_ & n & Hn & Hc & Hu).
  exists n. split; [exact Hn|]. split; [exact Hc|]. split; [exact Hu|].
  intros Hclock. exists (clock w n), (clock w (S n)). auto.
Qed.

Lemma created_at_is_not_after_updated_at_witness :
  exists n,
    (S n < clock_reads two_courses)%nat
    /\ stored_databases 101 1002 1003 !! "created_at"
       = Some (VDatetime (clock two_courses n))
    /\ stored_databases 101 1002 1003 !! "updated_at"
       = Some (VDatetime (clock two_courses (S n)))
    /\ ((forall m, clock two_courses m <= clock two_courses (S m)) ->
        exists t1 t2,
          stored_databases 101 1002 1003 !! "created_at" = Some (VDatetime t1)
          /\ stored_databases 101 1002 1003 !! "updated_at"
             = Some (VDatetime t2)
          /\ t1 <= t2).
Proof.
  apply (created_at_is_not_after_updated_at Course two_courses 101
           (stored_databases 101 1002 1003)).
  - apply two_courses_reachable.
  - by_evaluation.
Defined.
